(** * SimpleSensor: the MQTT client module and the Azure image predictor

    A shallow embedding of

    - [simplesensor/communication_modules/mqtt_client/mqttClientModule.py]
      (class [MQTTClientModule]), and
    - [simplesensor/collection_modules/demographic_camera/azureImagePredictor.py]
      (class [AzureImagePredictor]),

    followed by the properties of these two classes.

    Conventions of the embedding.

    - Python objects that travel in messages are JSON-like values ([PyVal]).
      A Python float is an IEEE 754 binary64 number ([spec_float], with the
      operations of [SpecFloat] at precision 53 and maximal exponent 1024);
      a Python int is an unbounded integer ([Z]).
    - A dict is an association list in insertion order; its keys are
      strings, as in decoded JSON.
    - A method of [MQTTClientModule] is a computation in the monad [M]: it
      reads and writes the mutable attributes of the instance ([World]),
      appends to a trace of observable events (log records, calls into the
      paho client, sleeps) and either returns or raises ([Exn]).
    - What lies outside the repository (the paho client, the inbound queue's
      producers, the HTTP endpoint, [Message.stringify]) is a parameter. *)

From Stdlib Require Import ZArith QArith List String Ascii Bool Lia.
From Stdlib Require Import DecimalString.
From Stdlib Require Import SpecFloat.
Import ListNotations.

Local Open Scope string_scope.
Local Open Scope Z_scope.

Set Warnings "-register-all".

(* ================================================================= *)
(** ** Python values *)

Inductive PyVal : Type :=
| VNone
| VBool (b : bool)
| VInt (z : Z)
| VFloat (x : spec_float)
| VStr (s : string)
| VList (l : list PyVal)
| VDict (d : list (string * PyVal)).

(** What [client.publish] is given as [payload]: a value, or the [bytes]
    produced by [Message.stringify]. *)
Inductive Payload : Type :=
| PVal (v : PyVal)
| PBytes (b : string).

(** The exceptions that occur; all of them derive from [Exception]. *)
Inductive Exn : Type :=
| NameError (name : string)
| AttributeError (attr : string)
| UnboundLocalError (name : string)
| KeyError (key : PyVal)
| IndexError
| TypeError (what : string)
| ZeroDivisionError
| OverflowError (msg : string)
| RuntimeError (format : string) (arg : Z)
| LibraryError (msg : string).

Definition Result (A : Type) : Type := (Exn + A)%type.

(** [bool(v)]: the truth value Python gives to [v] in [if not v], [v or 0]. *)
Definition truthy (v : PyVal) : bool :=
  match v with
  | VNone => false
  | VBool b => b
  | VInt z => negb (z =? 0)
  | VFloat x => match x with S754_zero _ => false | _ => true end
  | VStr s => negb (String.eqb s "")
  | VList l => match l with [] => false | _ => true end
  | VDict d => match d with [] => false | _ => true end
  end.

(** [type(v) is dict] *)
Definition is_dict (v : PyVal) : bool :=
  match v with VDict _ => true | _ => false end.

Fixpoint lookup (k : string) (d : list (string * PyVal)) : option PyVal :=
  match d with
  | [] => None
  | (k', v) :: d' => if String.eqb k k' then Some v else lookup k d'
  end.

Fixpoint chars (s : string) : list PyVal :=
  match s with
  | EmptyString => []
  | String c s' => VStr (String c EmptyString) :: chars s'
  end.

(** [iter(v)], as a [for] statement uses it: a list yields its elements, a
    dict its keys, a string its characters; anything else is not
    iterable. *)
Definition py_iter (v : PyVal) : Result (list PyVal) :=
  match v with
  | VList l => inr l
  | VDict d => inr (map (fun kv => VStr (fst kv)) d)
  | VStr s => inr (chars s)
  | _ => inl (TypeError "object is not iterable")
  end.

(** A sequence index: Python counts a negative index from the end. *)
Definition seq_index {A : Type} (l : list A) (i : Z) : option A :=
  let n := Z.of_nat (List.length l) in
  let j := if i <? 0 then i + n else i in
  if (0 <=? j) && (j <? n) then nth_error l (Z.to_nat j) else None.

Definition as_index (k : PyVal) : option Z :=
  match k with
  | VInt z => Some z
  | VBool b => Some (if b then 1 else 0)
  | _ => None
  end.

(** [v[k]] *)
Definition getitem (v k : PyVal) : Result PyVal :=
  match v with
  | VDict d =>
      match k with
      | VStr s => match lookup s d with
                  | Some x => inr x
                  | None => inl (KeyError k)
                  end
      | VList _ | VDict _ => inl (TypeError "unhashable type")
      | _ => inl (KeyError k)
      end
  | VList l =>
      match as_index k with
      | Some i => match seq_index l i with
                  | Some x => inr x
                  | None => inl IndexError
                  end
      | None => inl (TypeError "list indices must be integers or slices")
      end
  | VStr s =>
      match as_index k with
      | Some i => match seq_index (chars s) i with
                  | Some x => inr x
                  | None => inl IndexError
                  end
      | None => inl (TypeError "string indices must be integers")
      end
  | _ => inl (TypeError "object is not subscriptable")
  end.

(** A number in the middle of an addition: an int or a float. *)
Inductive Num : Type :=
| NInt (z : Z)
| NFloat (x : spec_float).

(** The number a value stands for under [+] with a number; [bool] is a
    subclass of [int]. *)
Definition as_number (v : PyVal) : option Num :=
  match v with
  | VBool b => Some (NInt (if b then 1 else 0))
  | VInt z => Some (NInt z)
  | VFloat x => Some (NFloat x)
  | _ => None
  end.

(** The conversion of an int to a float: the nearest binary64 number,
    ties to even; an int that rounds beyond the largest float does not
    convert. *)
Definition float_of_int (z : Z) : Result spec_float :=
  match binary_normalize 53 1024 z 0 false with
  | S754_infinity _ => inl (OverflowError "int too large to convert to float")
  | x => inr x
  end.

(** [float(a)] *)
Definition py_float (a : Num) : Result spec_float :=
  match a with
  | NInt z => float_of_int z
  | NFloat x => inr x
  end.

(** [a + b]: exact on two ints; an int met by a float is converted
    first. *)
Definition py_add (a b : Num) : Result Num :=
  match a, b with
  | NInt x, NInt y => inr (NInt (x + y))
  | _, _ =>
      match py_float a with
      | inl e => inl e
      | inr x =>
          match py_float b with
          | inl e => inl e
          | inr y => inr (NFloat (SFadd 53 1024 x y))
          end
      end
  end.

(** [x / n] for a float [x] and an int [n]. *)
Definition py_truediv (x : spec_float) (n : Z) : Result spec_float :=
  match float_of_int n with
  | inl e => inl e
  | inr y => if n =? 0 then inl ZeroDivisionError
             else inr (SFdiv 53 1024 x y)
  end.

(** [sum(aDict[key] for key in aDict)], started from the integer [0]: the
    generator is consumed one key at a time, so the first subscript or
    addition that fails ends the sum. *)
Fixpoint sum_items (aDict : PyVal) (keys : list PyVal) (acc : Num) : Result Num :=
  match keys with
  | [] => inr acc
  | k :: keys' =>
      match getitem aDict k with
      | inl e => inl e
      | inr v =>
          match as_number v with
          | Some b =>
              match py_add acc b with
              | inl e => inl e
              | inr acc' => sum_items aDict keys' acc'
              end
          | None => inl (TypeError "unsupported operand type(s) for +")
          end
      end
  end.

(** [len(v)] *)
Definition py_len (v : PyVal) : Result Z :=
  match v with
  | VStr s => inr (Z.of_nat (String.length s))
  | VList l => inr (Z.of_nat (List.length l))
  | VDict d => inr (Z.of_nat (List.length d))
  | _ => inl (TypeError "object has no len()")
  end.

(** [str.upper()] on ASCII letters. *)
Definition upper_ascii (c : ascii) : ascii :=
  let n := nat_of_ascii c in
  if (Nat.leb 97 n && Nat.leb n 122)%bool then ascii_of_nat (n - 32) else c.

Fixpoint upper (s : string) : string :=
  match s with
  | EmptyString => EmptyString
  | String c s' => String (upper_ascii c) (upper s')
  end.

(* ================================================================= *)
(** ** [distutils.version.LooseVersion]

    The standard library's class, as far as [check_ss_version] uses it:
    [parse] splits the string with the pattern [(\d+ | [a-z]+ | \.)], drops
    the empty pieces and the dots and turns the digit runs into integers;
    [<] compares the component lists as Python compares lists. *)

Module LooseVersion.

Inductive CharClass : Type := CDigit | CLower | CDot | COther.

Definition classify (c : ascii) : CharClass :=
  let n := nat_of_ascii c in
  if (Nat.leb 48 n && Nat.leb n 57)%bool then CDigit
  else if (Nat.leb 97 n && Nat.leb n 122)%bool then CLower
  else if Nat.eqb n 46 then CDot
  else COther.

Definition same_run (a b : CharClass) : bool :=
  match a, b with
  | CDigit, CDigit | CLower, CLower | COther, COther => true
  | _, _ => false
  end.

(** [component_re.split]: the maximal runs of digits, of lower-case
    letters and of other characters, every dot on its own. [cur] is the run
    being read. *)
Fixpoint split_from (cur : option (CharClass * string)) (s : string)
  : list (CharClass * string) :=
  match s with
  | EmptyString => match cur with Some r => [r] | None => [] end
  | String c s' =>
      let k := classify c in
      match cur with
      | Some (k', run) =>
          if same_run k k'
          then split_from (Some (k', run ++ String c EmptyString)) s'
          else (k', run) :: split_from (Some (k, String c EmptyString)) s'
      | None => split_from (Some (k, String c EmptyString)) s'
      end
  end.

Definition split (s : string) : list (CharClass * string) :=
  split_from None s.

Inductive Component : Type :=
| CInt (n : N)
| CStr (s : string).

(** [int(obj)] on a run of ASCII digits. *)
Fixpoint int_from (acc : N) (s : string) : N :=
  match s with
  | EmptyString => acc
  | String c s' => int_from (10 * acc + (N.of_nat (nat_of_ascii c) - 48))%N s'
  end.

Definition component (r : CharClass * string) : option Component :=
  match fst r with
  | CDot => None
  | CDigit => Some (CInt (int_from 0%N (snd r)))
  | _ => Some (CStr (snd r))
  end.

Fixpoint components (rs : list (CharClass * string)) : list Component :=
  match rs with
  | [] => []
  | r :: rs' => match component r with
                | Some c => c :: components rs'
                | None => components rs'
                end
  end.

(** [LooseVersion(vstring)]: [__init__] parses only a non-empty string, so
    the object made from [""] has no [version] attribute. *)
Definition make (vstring : string) : option (list Component) :=
  if String.eqb vstring "" then None else Some (components (split vstring)).

Definition comp_eqb (a b : Component) : bool :=
  match a, b with
  | CInt x, CInt y => N.eqb x y
  | CStr x, CStr y => String.eqb x y
  | _, _ => false
  end.

(** [a < b] on components: an integer and a string do not compare. *)
Definition comp_ltb (a b : Component) : Result bool :=
  match a, b with
  | CInt x, CInt y => inr (N.ltb x y)
  | CStr x, CStr y => inr (String.ltb x y)
  | _, _ => inl (TypeError "'<' not supported between instances of 'int' and 'str'")
  end.

Fixpoint list_eqb (a b : list Component) : bool :=
  match a, b with
  | [], [] => true
  | x :: a', y :: b' => comp_eqb x y && list_eqb a' b'
  | _, _ => false
  end.

(** [a < b] on lists: decided at the first position where they differ. *)
Fixpoint list_ltb (a b : list Component) : Result bool :=
  match a, b with
  | [], [] => inr false
  | [], _ :: _ => inr true
  | _ :: _, [] => inr false
  | x :: a', y :: b' => if comp_eqb x y then list_ltb a' b' else comp_ltb x y
  end.

(** [_cmp]: [0], [-1] or [1]; when none of [==], [<], [>] holds it returns
    [None], on which [c < 0] raises. *)
Definition _cmp (a b : option (list Component)) : Result Z :=
  match a, b with
  | Some va, Some vb =>
      if list_eqb va vb then inr 0
      else match list_ltb va vb with
           | inl e => inl e
           | inr true => inr (-1)
           | inr false =>
               match list_ltb vb va with
               | inl e => inl e
               | inr true => inr 1
               | inr false =>
                   inl (TypeError "'<' not supported between instances of 'NoneType' and 'int'")
               end
           end
  | _, _ => inl (AttributeError "version")
  end.

(** [LooseVersion(a) < LooseVersion(b)] *)
Definition lt (a b : string) : Result bool :=
  match _cmp (make a) (make b) with
  | inl e => inl e
  | inr c => inr (c <? 0)
  end.

End LooseVersion.

(* ================================================================= *)
(** ** The instance, its observable events and the monad of its methods *)

(** [simplesensor.shared.message.Message], as far as the module reads it. *)
Record Message : Type := {
  topic : string;
  extended_data : PyVal
}.

Inductive Level : Type := DEBUG | INFO | ERROR.

(** An argument of a log record's [%s]. *)
Inductive Arg : Type :=
| ArgStr (s : string)
| ArgInt (z : Z)
| ArgExn (e : Exn).

(** The topic ['{0}/feeds/{1}'.format(account, feed)] is kept as its two
    arguments. *)
Inductive Event : Type :=
| Log (lvl : Level) (format : string) (args : list Arg)
| Print (label : string) (v : PyVal)
| ClientConnect (host : string) (port keepalive : Z)
| ClientDisconnect
| ClientSubscribe (account : string) (feed : PyVal)
| ClientPublish (account : string) (feed : PyVal) (payload : Payload)
| ClientLoop (timeout : Q)
| Sleep (seconds : Q).

Definition is_publish (ev : Event) : bool :=
  match ev with ClientPublish _ _ _ => true | _ => false end.

Definition is_connect (ev : Event) : bool :=
  match ev with ClientConnect _ _ _ => true | _ => false end.

Definition is_loop (ev : Event) : bool :=
  match ev with ClientLoop _ => true | _ => false end.

(** The calls of [client.publish] in a trace, in order. *)
Definition publishes (tr : list Event) : list Event := filter is_publish tr.

(** The seconds slept in a trace. *)
Fixpoint slept (tr : list Event) : Q :=
  match tr with
  | [] => 0%Q
  | Sleep s :: tr' => (s + slept tr')%Q
  | _ :: tr' => slept tr'
  end.

(** The values [__init__] reads from the two configurations, and
    [__version__]. *)
Record Config : Type := {
  ss_version : string;
  MinSimpleSensorVersion : string;
  __version__ : string;
  MqttKeepAlive : Z;
  MqttFeedName : string;
  MqttUsername : string;
  MqttKey : string;
  MqttHost : string;
  MqttPort : Z;
  MqttPublishJson : bool
}.

(** The attributes of the instance that change, the inbound queue and the
    events so far (oldest first). *)
Record World : Type := {
  alive : bool;
  exit : bool;
  mqttConnected : bool;
  inQueue : list (option Message);
  trace : list Event
}.

Definition M (A : Type) : Type := World -> Result A * World.

Definition ret {A : Type} (a : A) : M A := fun w => (inr a, w).

Definition raise {A : Type} (e : Exn) : M A := fun w => (inl e, w).

Definition bind {A B : Type} (m : M A) (k : A -> M B) : M B :=
  fun w => match m w with
           | (inr a, w') => k a w'
           | (inl e, w') => (inl e, w')
           end.

(** [try: body  except Exception as e: handler e] *)
Definition try_except {A : Type} (body : M A) (handler : Exn -> M A) : M A :=
  fun w => match body w with
           | (inl e, w') => handler e w'
           | r => r
           end.

Definition lift {A : Type} (r : Result A) : M A := fun w => (r, w).

Declare Scope py_scope.
Delimit Scope py_scope with py.
Notation "x <- m ;; k" := (bind m (fun x => k))
  (at level 61, m at next level, right associativity) : py_scope.
Notation "m ;; k" := (bind m (fun _ => k))
  (at level 61, right associativity) : py_scope.
Local Open Scope py_scope.

Definition emit (ev : Event) : M unit :=
  fun w => (inr tt, {| alive := alive w; exit := exit w;
                       mqttConnected := mqttConnected w;
                       inQueue := inQueue w;
                       trace := trace w ++ [ev] |}).

Definition set_alive (b : bool) : M unit :=
  fun w => (inr tt, {| alive := b; exit := exit w;
                       mqttConnected := mqttConnected w;
                       inQueue := inQueue w; trace := trace w |}).

Definition set_exit (b : bool) : M unit :=
  fun w => (inr tt, {| alive := alive w; exit := b;
                       mqttConnected := mqttConnected w;
                       inQueue := inQueue w; trace := trace w |}).

Definition set_mqttConnected (b : bool) : M unit :=
  fun w => (inr tt, {| alive := alive w; exit := exit w;
                       mqttConnected := b;
                       inQueue := inQueue w; trace := trace w |}).

Definition set_inQueue (q : list (option Message)) : M unit :=
  fun w => (inr tt, {| alive := alive w; exit := exit w;
                       mqttConnected := mqttConnected w;
                       inQueue := q; trace := trace w |}).

Definition get_alive : M bool := fun w => (inr (alive w), w).
Definition get_mqttConnected : M bool := fun w => (inr (mqttConnected w), w).
Definition get_inQueue : M (list (option Message)) :=
  fun w => (inr (inQueue w), w).

Definition log (lvl : Level) (format : string) (args : list Arg) : M unit :=
  emit (Log lvl format args).

(** [time.sleep(seconds)] *)
Definition sleep (seconds : Q) : M unit := emit (Sleep seconds).

(** [for x in xs: body x] *)
Fixpoint for_each {A : Type} (xs : list A) (body : A -> M unit) : M unit :=
  match xs with
  | [] => ret tt
  | x :: xs' => body x ;; for_each xs' body
  end.

(* ================================================================= *)
(** ** [class MQTTClientModule] *)

(** What the paho client hands to the callbacks during one
    [client.loop()]. *)
Inductive Callback : Type :=
| OnConnect (rc : Z)
| OnDisconnect (rc : Z)
| OnMessage.

(** One turn of the [while] loop as the outside world drives it: the
    messages the producers have put on the queue since the last turn, and
    the callbacks [client.loop()] fires. *)
Record Tick : Type := {
  arrivals : list (option Message);
  callbacks : list Callback
}.

Section MQTTClientModule.

(** The configuration the instance was built from. *)
Variable cfg : Config.

(** The paho client: given the events so far and a call, the exception the
    call raises, if any. *)
Variable client : list Event -> Event -> option Exn.

(** [Message.stringify], defined with [Message] outside this module. *)
Variable stringify : Message -> Result string.

(** A call into [self._client]. *)
Definition call_client (ev : Event) : M unit :=
  fun w => match client (trace w) ev with
           | Some e => (emit ev ;; raise e) w
           | None => emit ev w
           end.

Definition check_ss_version : M bool :=
  log INFO "Module version %s" [ArgStr (__version__ cfg)] ;;
  older <- lift (LooseVersion.lt (ss_version cfg) (MinSimpleSensorVersion cfg)) ;;
  if older : bool then
    log ERROR
      "This module requires a min SimpleSensor %s version.  This instance is running version %s"
      [ArgStr (MinSimpleSensorVersion cfg); ArgStr (ss_version cfg)] ;;
    ret false
  else ret true.

Definition on_connect (rc : Z) : M unit :=
  log DEBUG "MQTT onConnect called" [] ;;
  if rc =? 0 then set_mqttConnected true
  else
    log ERROR "MQTT failed to connect: %s" [ArgInt rc] ;;
    raise (RuntimeError "MQTT failed to connect: %s" rc).

Definition handle_reconnect (result_code : Z) : M unit := ret tt.

Definition on_disconnect (rc : Z) : M unit :=
  log DEBUG "MQTT onDisconnect called" [] ;;
  set_mqttConnected false ;;
  if negb (rc =? 0) then
    log DEBUG "MQTT disconnected unexpectedly: %s" [ArgInt rc] ;;
    handle_reconnect rc
  else ret tt.

Definition on_message : M unit :=
  log DEBUG "MQTT onMessage called for client: %s" [ArgStr "client"].

Definition connect : M unit :=
  connected <- get_mqttConnected ;;
  if connected : bool then ret tt
  else call_client
         (ClientConnect (MqttHost cfg) (MqttPort cfg) (MqttKeepAlive cfg)).

Definition disconnect : M unit :=
  connected <- get_mqttConnected ;;
  if connected : bool then call_client ClientDisconnect else ret tt.

(** [if not feed: feed = _feedName]: the right-hand side is the bare name
    [_feedName], which is bound neither in the method nor in the module
    ([self._feedName] is an attribute, not a name in scope), so evaluating
    it raises. *)
Definition default_feed (feed : PyVal) : M PyVal :=
  if negb (truthy feed) then raise (NameError "_feedName") else ret feed.

(** [feed=False] when the caller gives no feed. *)
Definition no_feed : PyVal := VBool false.

Definition subscribe (feed : PyVal) : M unit :=
  feed' <- default_feed feed ;;
  call_client (ClientSubscribe (MqttUsername cfg) feed').

Definition publish (value : Payload) (feed : PyVal) : M unit :=
  feed' <- default_feed feed ;;
  call_client (ClientPublish (MqttUsername cfg) feed' value).

(** The first statement of [flatten_dict]: [Some] the average when the
    [try] body ends, [None] when the handler has run, which leaves the local
    [val] unassigned. *)
Definition flatten_dict_try (aDict : PyVal) : M (option PyVal) :=
  try_except
    (keys <- lift (py_iter aDict) ;;
     total <- lift (sum_items aDict keys (NInt 0)) ;;
     x <- lift (py_float total) ;;
     n <- lift (py_len aDict) ;;
     val <- lift (py_truediv x n) ;;
     ret (Some (VFloat val)))
    (fun e =>
       log ERROR "Error flattening dict, returning 0: %s" [ArgExn e] ;;
       ret None).

(** [return val or 0] *)
Definition flatten_dict (aDict : PyVal) : M PyVal :=
  val <- flatten_dict_try aDict ;;
  match val with
  | Some v => ret (if truthy v then v else VInt 0)
  | None => raise (UnboundLocalError "val")
  end.

Definition publish_face_values (message : Message) : M unit :=
  try_except
    (predictions <- lift (getitem (extended_data message) (VStr "predictions")) ;;
     faces <- lift (py_iter predictions) ;;
     for_each faces (fun face =>
       faceAttrs <- lift (getitem face (VStr "faceAttributes")) ;;
       keys <- lift (py_iter faceAttrs) ;;
       for_each keys (fun key =>
         attr <- lift (getitem faceAttrs key) ;;
         val <- (if is_dict attr then
                   v <- lift (getitem faceAttrs key) ;;
                   val <- flatten_dict v ;;
                   emit (Print "val: " val) ;;
                   ret val
                 else lift (getitem faceAttrs key)) ;;
         publish (PVal val) key)))
    (fun e => log ERROR "Error publishing values: %s" [ArgExn e]).

Definition publish_json_message (message : Message) : M unit :=
  payload <- lift (stringify message) ;;
  publish (PBytes payload) no_feed.

(** [self._publishFaceData]: no statement of the class assigns this
    attribute, so reading it raises. *)
Definition _publishFaceData : M bool :=
  raise (AttributeError "_publishFaceData").

(** [self.publish_values]: the class defines no such method. *)
Definition publish_values (message : Message) : M unit :=
  raise (AttributeError "publish_values").

Definition shutdown : M unit :=
  log INFO "Shutting down" [] ;;
  set_alive false ;;
  sleep 1 ;;
  set_exit true.

(** [self.inQueue.get(block=False, timeout=1)] *)
Definition queue_get : M (option Message) :=
  q <- get_inQueue ;;
  match q with
  | [] => raise (LibraryError "queue.Empty")
  | m :: q' => set_inQueue q' ;; ret m
  end.

(** The body of the [try] in [process_queue], after the message is
    taken. *)
Definition handle (message : option Message) : M unit :=
  connected <- get_mqttConnected ;;
  match message with
  | Some m =>
      if connected : bool then
        if String.eqb (upper (topic m)) "SHUTDOWN" then
          log DEBUG "SHUTDOWN command handled" [] ;;
          shutdown
        else if MqttPublishJson cfg then publish_json_message m
        else
          faceData <- _publishFaceData ;;
          if faceData : bool then publish_face_values m
          else publish_values m
      else ret tt
  | None => ret tt
  end.

(** The [if]/[else] on the queue inside the loop. *)
Definition drain : M unit :=
  q <- get_inQueue ;;
  match q with
  | _ :: _ =>
      try_except
        (message <- queue_get ;; handle message)
        (fun e => log ERROR "MQTT unable to read queue : %s " [ArgExn e])
  | [] => sleep (1 # 4)
  end.

Definition deliver (cb : Callback) : M unit :=
  match cb with
  | OnConnect rc => on_connect rc
  | OnDisconnect rc => on_disconnect rc
  | OnMessage => on_message
  end.

(** [self._client.loop(timeout=1)]: the client runs the callbacks that are
    due; an exception of a callback leaves [loop]. *)
Definition pump (cbs : list Callback) : M unit :=
  call_client (ClientLoop 1) ;;
  for_each cbs deliver.

Definition enqueue (ms : list (option Message)) : M unit :=
  q <- get_inQueue ;;
  set_inQueue (q ++ ms).

(** One turn of the [while] loop. *)
Definition iteration (t : Tick) : M unit :=
  enqueue (arrivals t) ;;
  pump (callbacks t) ;;
  drain.

(** [while self.alive: ...], driven by the given turns: [Some tt] when the
    loop has ended, [None] when the turns are used up and it is still
    running. *)
Fixpoint process_queue (ticks : list Tick) : M (option unit) :=
  running <- get_alive ;;
  if running : bool then
    match ticks with
    | [] => ret None
    | t :: ticks' => iteration t ;; process_queue ticks'
    end
  else ret (Some tt).

End MQTTClientModule.

(* ================================================================= *)
(** ** [class AzureImagePredictor] *)

Module AzureImagePredictor.

(** An exception together with the text [str(e)] gives for it. *)
Inductive Raised : Type :=
| EnvironmentError (msg : string)
| ValueError (msg : string)
| External (msg : string).

Definition str (e : Raised) : string :=
  match e with
  | EnvironmentError msg | ValueError msg | External msg => msg
  end.

(** ['%s' % n] for an integer. *)
Definition show_int (n : Z) : string := NilZero.string_of_int (Z.to_int n).

(** The [requests.Response] as far as it is read: [json] is what
    [r.json()] does. *)
Record Response : Type := {
  status_code : Z;
  text : string;
  json : Raised + PyVal
}.

Inductive LogRecord : Type :=
| LogError (msg : string)
| LogDebug (format : string) (v : PyVal).

Section Predictor.

(** [config['Azure']['SubscriptionKey']] and [config['Azure']['UriBase']] *)
Variable _subscriptionKey : string.
Variable _uriBase : string.

(** [requests.post(url, headers=self._headers, data=imageBytes)]: it
    raises or it returns a response. *)
Variable post : string -> string -> Raised + Response.

(** [urllib.parse.urlencode] of the three query parameters. *)
Definition _params : string :=
  "returnFaceId=true&returnFaceLandmarks=false&returnFaceAttributes=age%2Cgender%2Cglasses%2CfacialHair".

Definition api_url : string :=
  "https://" ++ _uriBase ++ "/face/v1.0/detect?" ++ _params.

(** The body of the inner [try] of [_get_prediction]. *)
Definition request (imageBytes : string) : (Raised + PyVal) * list LogRecord :=
  match post api_url imageBytes with
  | inl e => (inl e, [])
  | inr r =>
      if negb (status_code r =? 200) then
        (inl (ValueError
                ("Request to Azure returned an error " ++ show_int (status_code r)
                 ++ ", the response is:" ++ String "010" (text r))), [])
      else
        match json r with
        | inl e => (inl e, [])
        | inr jsonResult =>
            (inr jsonResult, [LogDebug "Got azure data %s" jsonResult])
        end
  end.

(** [_get_prediction]: the handler of the inner [try] logs the exception
    and falls off the end of the method, which returns [None]. *)
Definition _get_prediction (imageBytes : string)
  : (Raised + PyVal) * list LogRecord :=
  if (String.length _subscriptionKey <? 10)%nat then
    (inl (EnvironmentError
            ("Azure subscription key - " ++ _subscriptionKey ++ " - is not valid")),
     [])
  else
    match request imageBytes with
    | (inr jsonResult, logs) => (inr jsonResult, logs)
    | (inl e, logs) => (inr VNone, (logs ++ [LogError (str e)])%list)
    end.

(** [get_prediction]: the dict [resultData] and the log records. *)
Definition get_prediction (imageBytes : string)
  : list (string * PyVal) * list LogRecord :=
  match _get_prediction imageBytes with
  | (inr tempResult, logs) => ([("predictions", tempResult)], logs)
  | (inl e, logs) =>
      ([("error", VStr (str e))],
       (logs ++ [LogError ("Error getting prediction: " ++ str e)])%list)
  end.

End Predictor.

End AzureImagePredictor.

(* ================================================================= *)
(** ** The layout of the two source files

    Python groups statements by indentation. A file is read as a sequence
    of logical lines (blank lines and comment lines do not count; a string
    or a bracket that spans lines belongs to the line it starts on). The
    indentation of each logical line is compared with a stack of the
    enclosing indentations: a larger one opens a block, which is allowed
    only after a line that ends in a colon; a smaller one must be on the
    stack. *)

Module Layout.

(** A logical line: the number of its first physical line, the number of
    spaces before it, and whether it ends in a colon. *)
Record Line : Type := line {
  lineno : nat;
  indent : nat;
  opens : bool
}.

Inductive IndentationError : Type :=
| UnexpectedIndent (at_line : nat)
| ExpectedBlock (at_line : nat)
| UnindentMismatch (at_line : nat).

(** Closing blocks down to the column [col], which has to be one of the
    enclosing indentations. *)
Fixpoint dedent (col : nat) (stack : list nat) : option (list nat) :=
  match stack with
  | [] => None
  | top :: rest =>
      if Nat.eqb col top then Some stack
      else if Nat.ltb top col then None
      else dedent col rest
  end.

(** Reading the lines in order: [stack] holds the enclosing indentations,
    innermost first, and [opened] tells whether the line before ended in a
    colon. The result is the stack at the end of the file or the first
    error. *)
Fixpoint scan (stack : list nat) (opened : bool) (lines : list Line)
  : IndentationError + list nat :=
  match lines with
  | [] => inr stack
  | l :: rest =>
      if Nat.ltb (hd 0%nat stack) (indent l) then
        if opened then scan (indent l :: stack) (opens l) rest
        else inl (UnexpectedIndent (lineno l))
      else if opened then inl (ExpectedBlock (lineno l))
      else match dedent (indent l) stack with
           | Some stack' => scan stack' (opens l) rest
           | None => inl (UnindentMismatch (lineno l))
           end
  end.

(** Reading a whole file. *)
Definition read (lines : list Line) : IndentationError + list nat :=
  scan [0%nat] false lines.

(** The logical lines of [mqttClientModule.py]. *)
Definition mqttClientModule_py : list Line :=
  [line 1 0 false;
   line 5 0 false;
   line 6 0 false;
   line 7 0 false;
   line 8 0 false;
   line 9 0 false;
   line 10 0 false;
   line 11 0 false;
   line 12 0 false;
   line 13 0 false;
   line 15 0 true;
   line 16 4 false;
   line 18 4 true;
   line 20 8 false;
   line 21 8 false;
   line 22 8 false;
   line 23 8 false;
   line 26 8 false;
   line 29 8 false;
   line 30 8 false;
   line 31 8 false;
   line 32 8 false;
   line 33 8 false;
   line 34 8 false;
   line 35 8 false;
   line 38 8 false;
   line 39 8 false;
   line 40 8 false;
   line 41 8 false;
   line 42 8 false;
   line 43 8 false;
   line 46 8 false;
   line 48 4 true;
   line 50 8 false;
   line 51 8 true;
   line 52 12 false;
   line 53 12 false;
   line 54 8 false;
   line 56 4 true;
   line 57 8 false;
   line 59 8 true;
   line 60 12 false;
   line 63 8 true;
   line 64 12 false;
   line 65 12 false;
   line 67 4 true;
   line 68 8 false;
   line 69 8 false;
   line 70 8 true;
   line 71 12 false;
   line 72 12 false;
   line 74 4 true;
   line 75 8 false;
   line 77 4 true;
   line 78 8 false;
   line 80 4 true;
   line 81 8 false;
   line 84 8 true;
   line 85 12 false;
   line 87 8 false;
   line 89 4 true;
   line 90 8 false;
   line 91 8 true;
   line 92 12 false;
   line 94 4 true;
   line 95 8 false;
   line 96 8 false;
   line 97 8 false;
   line 99 4 true;
   line 100 8 false;
   line 101 8 false;
   line 102 8 false;
   line 104 4 true;
   line 105 8 false;
   line 108 8 true;
   line 109 12 true;
   line 110 16 false;
   line 111 16 true;
   line 112 20 true;
   line 113 24 false;
   line 114 24 false;
   line 115 20 true;
   line 116 24 false;
   line 117 20 false;
   line 118 8 true;
   line 119 12 false;
   line 121 4 true;
   line 122 8 false;
   line 123 8 true;
   line 124 12 false;
   line 125 8 true;
   line 126 12 false;
   line 127 8 false;
   line 129 4 true;
   line 130 8 false;
   line 132 4 true;
   line 133 8 false;
   line 134 8 false;
   line 136 4 true;
   line 137 8 false;
   line 139 8 true;
   line 141 12 false;
   line 142 12 true;
   line 143 16 true;
   line 144 20 false;
   line 145 20 true;
   line 146 24 true;
   line 147 28 false;
   line 148 28 false;
   line 149 24 true;
   line 151 28 true;
   line 152 32 false;
   line 153 28 true;
   line 154 32 false;
   line 155 28 true;
   line 156 32 false;
   line 158 16 true;
   line 159 20 false;
   line 160 12 true;
   line 161 16 false;
   line 163 4 true;
   line 164 8 false;
   line 165 8 false;
   line 166 8 false;
   line 167 8 false;
   line 169 4 true;
   line 170 7 true;
   line 172 12 false;
   line 174 8 false;
   line 175 8 false;
   line 177 8 false;
   line 178 8 false;
   line 181 8 false].


(** The logical lines of [azureImagePredictor.py]. *)
Definition azureImagePredictor_py : list Line :=
  [line 1 0 false;
   line 6 0 false;
   line 7 0 false;
   line 8 0 false;
   line 9 0 false;
   line 10 0 false;
   line 13 0 true;
   line 14 4 true;
   line 15 8 false;
   line 20 8 false;
   line 21 8 false;
   line 24 8 false;
   line 25 8 false;
   line 27 8 false;
   line 31 8 false;
   line 37 4 true;
   line 38 8 false;
   line 42 8 false;
   line 44 8 true;
   line 45 12 false;
   line 46 12 false;
   line 48 8 true;
   line 49 12 false;
   line 50 12 false;
   line 52 8 false;
   line 54 4 true;
   line 55 8 false;
   line 57 8 true;
   line 58 12 false;
   line 59 8 true;
   line 60 12 true;
   line 61 16 false;
   line 62 16 false;
   line 66 16 true;
   line 67 20 false;
   line 72 16 false;
   line 73 16 false;
   line 74 16 false;
   line 76 12 true;
   line 77 16 false].


(** [mqttClientModule.py] with line 170 moved one column to the right. *)
Definition mqttClientModule_realigned : list Line :=
  map (fun l => if Nat.eqb (lineno l) 170 then line 170 8 (opens l) else l)
      mqttClientModule_py.

End Layout.

(* ================================================================= *)
(** ** Sample data *)

Local Open Scope list_scope.

(** A paho client none of whose calls raises. *)
Definition quiet_client : list Event -> Event -> option Exn :=
  fun _ _ => None.

(** A [stringify] that returns the topic between braces. *)
Definition sample_stringify (m : Message) : Result string :=
  inr ("{" ++ topic m ++ "}")%string.

Definition sample_cfg (publishJson : bool) (current minimum : string) : Config :=
  {| ss_version := current;
     MinSimpleSensorVersion := minimum;
     __version__ := "1.0.0";
     MqttKeepAlive := 60;
     MqttFeedName := "sensor";
     MqttUsername := "account";
     MqttKey := "key";
     MqttHost := "io.adafruit.com";
     MqttPort := 1883;
     MqttPublishJson := publishJson |}.

(** A running instance with the given connection state and queue and an
    empty trace. *)
Definition sample_world (connected : bool) (q : list (option Message)) : World :=
  {| alive := true; exit := false; mqttConnected := connected;
     inQueue := q; trace := [] |}.

Definition face_message (data : PyVal) : Message :=
  {| topic := "face"; extended_data := data |}.

Definition shutdown_message : Message :=
  {| topic := "Shutdown"; extended_data := VNone |}.

(** An endpoint that answers every request with status 500. *)
Definition failing_endpoint (url data : string)
  : AzureImagePredictor.Raised + AzureImagePredictor.Response :=
  inr {| AzureImagePredictor.status_code := 500;
         AzureImagePredictor.text := "Internal Server Error";
         AzureImagePredictor.json := inr VNone |}.

(** An endpoint that answers every request with status 200 and one
    detected face. *)
Definition working_endpoint (url data : string)
  : AzureImagePredictor.Raised + AzureImagePredictor.Response :=
  inr {| AzureImagePredictor.status_code := 200;
         AzureImagePredictor.text := "[{}]";
         AzureImagePredictor.json := inr (VList [VDict []]) |}.

(** An endpoint that cannot be reached. *)
Definition unreachable_endpoint (url data : string)
  : AzureImagePredictor.Raised + AzureImagePredictor.Response :=
  inl (AzureImagePredictor.External "Connection refused").

(** One face with two scalar attributes. *)
Definition two_attributes : list (string * PyVal) :=
  [("age"%string, VInt 30); ("gender"%string, VStr "male")].

(** The float written [n/d] in decimal: the binary64 number nearest to
    the quotient. *)
Definition float_literal (n d : Z) : spec_float :=
  SFdiv 53 1024 (binary_normalize 53 1024 n 0 false)
        (binary_normalize 53 1024 d 0 false).

(** The integer a value is, when it is an int or a bool. *)
Definition as_int (v : PyVal) : option Z :=
  match v with
  | VInt z => Some z
  | VBool b => Some (if b then 1 else 0)
  | _ => None
  end.

(** The instance [w] after the events [evs]. *)
Definition after (w : World) (evs : list Event) : World :=
  {| alive := alive w; exit := exit w; mqttConnected := mqttConnected w;
     inQueue := inQueue w; trace := trace w ++ evs |}.

(** Two faces: the first well formed, the second without
    ["faceAttributes"]. *)
Definition half_malformed : PyVal :=
  VDict [("predictions"%string,
          VList [VDict [("faceAttributes"%string,
                         VDict [("age"%string, VInt 30)])];
                 VDict []])].

(** The events a turn of the loop is seen to produce: log records, sleeps
    and [client.loop]. *)
Definition loop_event (ev : Event) : bool :=
  match ev with
  | Log _ _ _ | Sleep _ | ClientLoop _ => true
  | _ => false
  end.

Definition is_log (ev : Event) : bool :=
  match ev with Log _ _ _ => true | _ => false end.

(** Every run of [m] extends the trace, and only by events that satisfy
    [P]. *)
Definition grows_by {A : Type} (P : Event -> bool) (m : M A) : Prop :=
  forall w, exists evs,
    trace (snd (m w)) = trace w ++ evs /\ forallb P evs = true.

(** A [faceAttributes] dict whose keys are distinct and not empty and whose
    values are not dicts. *)
Definition scalar_attrs (d : list (string * PyVal)) : Prop :=
  NoDup (map fst d)
  /\ Forall (fun kv => fst kv <> ""%string /\ is_dict (snd kv) = false) d.

(** One call of [client.publish] per attribute, under the attribute's
    name. *)
Definition attr_publishes (account : string) (d : list (string * PyVal))
  : list Event :=
  map (fun kv => ClientPublish account (VStr (fst kv)) (PVal (snd kv))) d.

(** The classes of a digit and of a dot. *)
Definition numeric_class (k : LooseVersion.CharClass) : bool :=
  match k with
  | LooseVersion.CDigit | LooseVersion.CDot => true
  | _ => false
  end.

(** A version string of ASCII digits and dots only. *)
Definition dotted_numeric (s : string) : bool :=
  forallb (fun c => numeric_class (LooseVersion.classify c))
          (list_ascii_of_string s).

Definition is_int (c : LooseVersion.Component) : bool :=
  match c with LooseVersion.CInt _ => true | _ => false end.

(** A turn in which nothing arrives and no callback fires. *)
Definition idle : Tick := {| arrivals := []; callbacks := [] |}.

(** The body of the inner [for] of [publish_face_values], for one key of
    [faceAttrs]. *)
Definition publish_attr (cfg : Config) (client : list Event -> Event -> option Exn)
           (faceAttrs key : PyVal) : M unit :=
  bind (lift (getitem faceAttrs key)) (fun attr =>
  bind (if is_dict attr then
          bind (lift (getitem faceAttrs key)) (fun v =>
          bind (flatten_dict v) (fun val =>
          bind (emit (Print "val: " val)) (fun _ => ret val)))
        else lift (getitem faceAttrs key)) (fun val =>
  publish cfg client (PVal val) key)).

(** The body of the outer [for] of [publish_face_values], for one face. *)
Definition publish_face (cfg : Config) (client : list Event -> Event -> option Exn)
           (face : PyVal) : M unit :=
  bind (lift (getitem face (VStr "faceAttributes"))) (fun faceAttrs =>
  bind (lift (py_iter faceAttrs)) (fun keys =>
  for_each keys (publish_attr cfg client faceAttrs))).

(* ================================================================= *)
(** ** Properties of [MQTTClientModule] *)

Lemma publishes_app (tr1 tr2 : list Event) :
  publishes (tr1 ++ tr2) = publishes tr1 ++ publishes tr2.
Proof. apply filter_app. Qed.

(** A [try] whose handler only logs does not raise. *)
Lemma try_except_log_returns (body : M unit) (lvl : Level) (format : string)
      (w : World) :
  fst (try_except body (fun e => log lvl format [ArgExn e]) w) = inr tt.
Proof.
  unfold try_except.
  destruct (body w) as [[e | []] w']; reflexivity.
Qed.

Section Properties.

Variable cfg : Config.
Variable client : list Event -> Event -> option Exn.
Variable stringify : Message -> Result string.

(** C1. A call of [publish] or [subscribe] without a feed does not reach
    the paho client: the default is taken from the unbound name
    [_feedName], the call raises [NameError] and the instance and its trace
    are as before. *)
Theorem publish_without_feed_raises (value : Payload) (w : World) :
  publish cfg client value no_feed w = (inl (NameError "_feedName"), w)
  /\ subscribe cfg client no_feed w = (inl (NameError "_feedName"), w).
Proof. split; reflexivity. Qed.

(** The same for every feed that is false in a condition (the empty
    string, [None], [0]). *)
Lemma publish_falsy_feed_raises (value : Payload) (feed : PyVal) (w : World) :
  truthy feed = false ->
  publish cfg client value feed w = (inl (NameError "_feedName"), w).
Proof.
  intros H. unfold publish, default_feed, bind. rewrite H. reflexivity.
Qed.

(** With a feed that is true in a condition the call reaches the client,
    under that feed. *)
Lemma publish_with_feed (value : Payload) (feed : PyVal) (w : World) :
  truthy feed = true ->
  trace (snd (publish cfg client value feed w))
  = trace w ++ [ClientPublish (MqttUsername cfg) feed value].
Proof.
  intros H. unfold publish, default_feed, bind, call_client. rewrite H. simpl.
  destruct (client (trace w) _); reflexivity.
Qed.

(** C8. A message taken from the queue while [mqttConnected] is false is
    dropped: [drain] returns normally, the message is off the queue and not
    put back, nothing is logged and the client is not called. *)
Theorem disconnected_message_dropped
        (w : World) (message : option Message) (q : list (option Message)) :
  mqttConnected w = false ->
  inQueue w = message :: q ->
  drain cfg client stringify w
  = (inr tt, {| alive := alive w; exit := exit w; mqttConnected := false;
                inQueue := q; trace := trace w |})
  /\ publishes (trace (snd (drain cfg client stringify w))) = publishes (trace w).
Proof.
  intros Hc Hq. destruct w as [al ex conn q0 tr]. simpl in *. subst.
  unfold drain, try_except, bind; simpl.
  destruct message; split; reflexivity.
Qed.

(** C3. A message whose topic is ["SHUTDOWN"] in any letter case, taken
    from the queue while connected, runs [shutdown]: [drain] returns
    normally, [alive] is false afterwards, and the trace grows by the two
    log records and the one-second sleep only, so [client.publish] is not
    called. *)
Theorem shutdown_message_stops_worker
        (w : World) (m : Message) (q : list (option Message)) :
  mqttConnected w = true ->
  inQueue w = Some m :: q ->
  upper (topic m) = "SHUTDOWN"%string ->
  drain cfg client stringify w
  = (inr tt, {| alive := false; exit := true; mqttConnected := true;
                inQueue := q;
                trace := trace w ++ [Log DEBUG "SHUTDOWN command handled" [];
                                     Log INFO "Shutting down" [];
                                     Sleep 1] |})
  /\ alive (snd (drain cfg client stringify w)) = false
  /\ publishes (trace (snd (drain cfg client stringify w))) = publishes (trace w).
Proof.
  intros Hc Hq Ht. destruct w as [al ex conn q0 tr]. simpl in *. subst.
  assert (E : drain cfg client stringify
                {| alive := al; exit := ex; mqttConnected := true;
                   inQueue := Some m :: q; trace := tr |}
              = (inr tt, {| alive := false; exit := true; mqttConnected := true;
                            inQueue := q;
                            trace := tr ++ [Log DEBUG "SHUTDOWN command handled" [];
                                            Log INFO "Shutting down" [];
                                            Sleep 1] |})).
  { unfold drain, try_except, bind; cbn -[String.eqb upper]. rewrite Ht.
    cbn. rewrite <- !app_assoc. reflexivity. }
  rewrite E. simpl. repeat split.
  rewrite publishes_app. simpl. apply app_nil_r.
Qed.

(** C6. With [MqttPublishJson] false, a message that is not the shutdown
    command, taken from the queue while connected, reaches the read of
    [self._publishFaceData]; the [AttributeError] is caught by the [try] of
    the loop and logged, [drain] returns normally and [client.publish] is
    not called. *)
Theorem face_data_flag_missing
        (w : World) (m : Message) (q : list (option Message)) :
  MqttPublishJson cfg = false ->
  mqttConnected w = true ->
  inQueue w = Some m :: q ->
  upper (topic m) <> "SHUTDOWN"%string ->
  drain cfg client stringify w
  = (inr tt, {| alive := alive w; exit := exit w; mqttConnected := true;
                inQueue := q;
                trace := trace w
                         ++ [Log ERROR "MQTT unable to read queue : %s "
                                 [ArgExn (AttributeError "_publishFaceData")]] |})
  /\ publishes (trace (snd (drain cfg client stringify w))) = publishes (trace w).
Proof.
  intros Hj Hc Hq Ht. destruct w as [al ex conn q0 tr]. simpl in *. subst.
  apply String.eqb_neq in Ht.
  assert (E : drain cfg client stringify
                {| alive := al; exit := ex; mqttConnected := true;
                   inQueue := Some m :: q; trace := tr |}
              = (inr tt, {| alive := al; exit := ex; mqttConnected := true;
                            inQueue := q;
                            trace := tr
                              ++ [Log ERROR "MQTT unable to read queue : %s "
                                      [ArgExn (AttributeError "_publishFaceData")]] |})).
  { unfold drain, try_except, bind; cbn -[String.eqb upper].
    rewrite Ht, Hj. reflexivity. }
  rewrite E. simpl. split; [reflexivity |].
  rewrite publishes_app. simpl. apply app_nil_r.
Qed.

(** C2, as the code behaves. With [MqttPublishJson] true, a message that
    is not the shutdown command, taken from the queue while connected, is
    handed to [publish_json_message], which calls [publish] without a feed;
    whatever [stringify] does, an exception is caught and logged by the
    [try] of the loop and [client.publish] is not called at all. *)
Theorem json_message_never_published
        (w : World) (m : Message) (q : list (option Message)) :
  MqttPublishJson cfg = true ->
  mqttConnected w = true ->
  inQueue w = Some m :: q ->
  upper (topic m) <> "SHUTDOWN"%string ->
  fst (drain cfg client stringify w) = inr tt
  /\ publishes (trace (snd (drain cfg client stringify w))) = publishes (trace w)
  /\ (forall payload, stringify m = inr payload ->
      trace (snd (drain cfg client stringify w))
      = trace w ++ [Log ERROR "MQTT unable to read queue : %s "
                        [ArgExn (NameError "_feedName")]]).
Proof.
  intros Hj Hc Hq Ht. destruct w as [al ex conn q0 tr]. simpl in *. subst.
  apply String.eqb_neq in Ht.
  unfold drain, try_except, bind; cbn -[String.eqb upper]. rewrite Ht, Hj.
  unfold publish_json_message, bind, lift.
  destruct (stringify m) as [e | payload]; simpl.
  - repeat split.
    + rewrite publishes_app. simpl. apply app_nil_r.
    + intros p Hp. discriminate Hp.
  - repeat split.
    rewrite publishes_app. simpl. apply app_nil_r.
Qed.

(** C4, as the code behaves. On the empty dict the division raises
    [ZeroDivisionError]; the handler logs "returning 0" and leaves the local
    [val] unassigned, so the [return] raises [UnboundLocalError] instead of
    returning [0]. *)
Theorem flatten_dict_empty_raises (w : World) :
  flatten_dict (VDict []) w
  = (inl (UnboundLocalError "val"),
     {| alive := alive w; exit := exit w; mqttConnected := mqttConnected w;
        inQueue := inQueue w;
        trace := trace w ++ [Log ERROR "Error flattening dict, returning 0: %s"
                                 [ArgExn ZeroDivisionError]] |}).
Proof. reflexivity. Qed.

(** Whenever [flatten_dict] returns, its handler has not run: nothing was
    logged and the instance is as before. So no input makes it fail soft. *)
Lemma flatten_dict_returns_only_without_error (aDict v : PyVal) (w w' : World) :
  flatten_dict aDict w = (inr v, w') -> w' = w.
Proof.
  unfold flatten_dict, flatten_dict_try, try_except, bind, lift.
  destruct (py_iter aDict) as [e | keys]; simpl; [discriminate |].
  destruct (sum_items aDict keys (NInt 0)) as [e | total]; simpl; [discriminate |].
  destruct (py_float total) as [e | x]; simpl; [discriminate |].
  destruct (py_len aDict) as [e | n]; simpl; [discriminate |].
  destruct (py_truediv x n) as [e | val]; simpl; [discriminate |].
  intros H. inversion H. reflexivity.
Qed.

(** A value in a dict with distinct keys is what the subscript finds. *)
Lemma lookup_In (d : list (string * PyVal)) (k : string) (v : PyVal) :
  NoDup (map fst d) -> In (k, v) d -> lookup k d = Some v.
Proof.
  induction d as [| [k' v'] d IH]; simpl; intros Hnd Hin; [contradiction |].
  inversion Hnd as [| ? ? Hnotin Hnd']; subst.
  destruct Hin as [Heq | Hin].
  - inversion Heq; subst. rewrite String.eqb_refl. reflexivity.
  - destruct (String.eqb k k') eqn:E.
    + apply String.eqb_eq in E. subst. exfalso. apply Hnotin.
      apply (in_map fst) in Hin. exact Hin.
    + apply IH; assumption.
Qed.

(** The sum over the items of a dict of ints is the exact integer sum. *)
Lemma sum_items_integers (d part : list (string * PyVal)) (zs : list Z) (acc : Z) :
  NoDup (map fst d) ->
  incl part d ->
  Forall2 (fun kv z => as_int (snd kv) = Some z) part zs ->
  sum_items (VDict d) (map (fun kv => VStr (fst kv)) part) (NInt acc)
  = inr (NInt (fold_left Z.add zs acc)).
Proof.
  intros Hnd Hincl Hnum. revert acc Hincl.
  induction Hnum as [| [k v] z part zs Hz Hrest IH]; intros acc Hincl.
  - reflexivity.
  - simpl. rewrite (lookup_In d k v Hnd (Hincl _ (in_eq _ _))).
    simpl in Hz.
    assert (Hn : as_number v = Some (NInt z))
      by (destruct v; simpl in *; try discriminate; congruence).
    rewrite Hn. simpl. apply IH.
    intros x Hx. apply Hincl. right. exact Hx.
Qed.

(** X19. On a dict with distinct keys whose values are all ints or bools
    [flatten_dict] behaves as [float(S) / n] for the exact integer sum [S]
    and the number [n] of entries: it returns that float, or the integer
    [0] when it is zero, and logs nothing; when [S] does not convert to a
    float, or [n] is zero, the error is logged and [UnboundLocalError] is
    raised. *)
Theorem flatten_dict_integers (d : list (string * PyVal)) (zs : list Z) (w : World) :
  NoDup (map fst d) ->
  Forall2 (fun kv z => as_int (snd kv) = Some z) d zs ->
  flatten_dict (VDict d) w
  = match
      match float_of_int (fold_left Z.add zs 0) with
      | inl e => inl e
      | inr x => py_truediv x (Z.of_nat (List.length d))
      end
    with
    | inr m => (inr (if truthy (VFloat m) then VFloat m else VInt 0), w)
    | inl e =>
        (inl (UnboundLocalError "val"),
         after w [Log ERROR "Error flattening dict, returning 0: %s" [ArgExn e]])
    end.
Proof.
  intros Hnd Hnum.
  unfold flatten_dict, flatten_dict_try, try_except, bind, lift. simpl.
  rewrite (sum_items_integers d d zs 0 Hnd (incl_refl d) Hnum). simpl.
  destruct (float_of_int (fold_left Z.add zs 0)) as [e | x]; simpl;
    [reflexivity |].
  destruct (py_truediv x (Z.of_nat (List.length d))) as [e | m]; reflexivity.
Qed.

(** The mean of [{"happy": 0.8, "sad": 0.2}] is one half. *)
Example flatten_dict_emotion (w : World) :
  flatten_dict (VDict [("happy"%string, VFloat (float_literal 8 10));
                       ("sad"%string, VFloat (float_literal 2 10))]) w
  = (inr (VFloat (float_literal 1 2)), w).
Proof. reflexivity. Qed.

(** An int beyond the range of floats does not convert: the handler runs
    and [flatten_dict] raises. *)
Example flatten_dict_huge_int (w : World) :
  exists msg,
    flatten_dict (VDict [("a"%string, VInt (10 ^ 400))]) w
    = (inl (UnboundLocalError "val"),
       after w [Log ERROR "Error flattening dict, returning 0: %s"
                    [ArgExn (OverflowError msg)]]).
Proof. eexists. vm_compute. reflexivity. Qed.

(** Two tiny floats whose mean rounds to zero give the integer [0]. *)
Example flatten_dict_underflow (w : World) :
  flatten_dict (VDict [("a"%string, VFloat (S754_finite false 1 (-1074)));
                       ("b"%string, VFloat (S754_zero false))]) w
  = (inr (VInt 0), w).
Proof. reflexivity. Qed.

Lemma slept_app (tr1 tr2 : list Event) :
  (slept (tr1 ++ tr2) == slept tr1 + slept tr2)%Q.
Proof.
  induction tr1 as [| ev tr1 IH]; simpl.
  - rewrite Qplus_0_l. reflexivity.
  - destruct ev; try exact IH. rewrite IH. apply Qplus_assoc.
Qed.

(** C5, as the code behaves. Two calls of [shutdown] return normally and
    leave [alive] false and [exit] true, the flags one call leaves; each call
    logs and sleeps its own second, so the two calls sleep two seconds. *)
Theorem shutdown_twice (w : World) :
  (shutdown ;; shutdown) w
  = (inr tt, {| alive := false; exit := true;
                mqttConnected := mqttConnected w; inQueue := inQueue w;
                trace := trace w ++ [Log INFO "Shutting down" []; Sleep 1;
                                     Log INFO "Shutting down" []; Sleep 1] |})
  /\ alive (snd ((shutdown ;; shutdown) w)) = alive (snd (shutdown w))
  /\ exit (snd ((shutdown ;; shutdown) w)) = exit (snd (shutdown w))
  /\ (slept (trace (snd (shutdown w))) == slept (trace w) + 1)%Q
  /\ (slept (trace (snd ((shutdown ;; shutdown) w))) == slept (trace w) + 2)%Q.
Proof.
  destruct w as [al ex conn q tr].
  unfold shutdown, bind; simpl. rewrite <- !app_assoc. simpl.
  repeat split; rewrite slept_app; simpl; reflexivity.
Qed.

(** In each of these cases the calls of [client.publish] are those made
    before. *)
Lemma after_log_publishes (w : World) (lvl : Level) (format : string)
      (args : list Arg) :
  publishes (trace (after w [Log lvl format args])) = publishes (trace w).
Proof. simpl. rewrite publishes_app. simpl. apply app_nil_r. Qed.

(** The loop does not run once [alive] is false. *)
Lemma process_queue_not_alive (ticks : list Tick) (w : World) :
  alive w = false ->
  process_queue cfg client stringify ticks w = (inr (Some tt), w).
Proof.
  intros H. destruct ticks; simpl; unfold bind, get_alive; rewrite H;
    reflexivity.
Qed.

(** X18. A turn in which nothing arrives and no callback fires, on a connected
    instance whose next message is the shutdown command, is the last one:
    [process_queue] ends whatever turns remain. *)
Lemma shutdown_ends_loop
      (ticks : list Tick) (w : World) (m : Message) (q : list (option Message)) :
  alive w = true ->
  mqttConnected w = true ->
  inQueue w = Some m :: q ->
  upper (topic m) = "SHUTDOWN"%string ->
  client (trace w) (ClientLoop 1) = None ->
  process_queue cfg client stringify
                ({| arrivals := []; callbacks := [] |} :: ticks) w
  = (inr (Some tt),
     {| alive := false; exit := true; mqttConnected := true; inQueue := q;
        trace := trace w ++ [ClientLoop 1;
                             Log DEBUG "SHUTDOWN command handled" [];
                             Log INFO "Shutting down" [];
                             Sleep 1] |}).
Proof.
  intros Ha Hc Hq Ht Hl. destruct w as [al ex conn q0 tr]. simpl in *. subst.
  unfold bind at 1. simpl.
  unfold bind at 1.
  assert (E : iteration cfg client stringify {| arrivals := []; callbacks := [] |}
                {| alive := true; exit := ex; mqttConnected := true;
                   inQueue := Some m :: q; trace := tr |}
              = (inr tt,
                 {| alive := false; exit := true; mqttConnected := true;
                    inQueue := q;
                    trace := tr ++ [ClientLoop 1;
                                    Log DEBUG "SHUTDOWN command handled" [];
                                    Log INFO "Shutting down" [];
                                    Sleep 1] |})).
  { unfold iteration, enqueue, pump, call_client, drain, try_except, bind.
    cbn -[String.eqb upper]. rewrite Hl. cbn -[String.eqb upper].
    rewrite Ht. cbn. rewrite <- !app_assoc, (app_nil_r q). reflexivity. }
  rewrite E. apply process_queue_not_alive. reflexivity.
Qed.

End Properties.

Lemma disconnected_message_dropped_witness :
  let w := sample_world false [Some (face_message VNone); None] in
  drain (sample_cfg true "2.1.0" "2.0.0") quiet_client sample_stringify w
  = (inr tt, sample_world false [None])
  /\ publishes (trace (snd (drain (sample_cfg true "2.1.0" "2.0.0")
                                 quiet_client sample_stringify w))) = [].
Proof.
  exact (disconnected_message_dropped
           (sample_cfg true "2.1.0" "2.0.0") quiet_client sample_stringify
           (sample_world false [Some (face_message VNone); None])
           (Some (face_message VNone)) [None] eq_refl eq_refl).
Defined.

Lemma shutdown_message_stops_worker_witness :
  alive (snd (drain (sample_cfg true "2.1.0" "2.0.0") quiet_client
                    sample_stringify
                    (sample_world true [Some shutdown_message]))) = false.
Proof.
  exact (proj1 (proj2 (shutdown_message_stops_worker
           (sample_cfg true "2.1.0" "2.0.0") quiet_client sample_stringify
           (sample_world true [Some shutdown_message])
           shutdown_message [] eq_refl eq_refl eq_refl))).
Defined.

Lemma face_data_flag_missing_witness :
  publishes (trace (snd (drain (sample_cfg false "2.1.0" "2.0.0") quiet_client
                               sample_stringify
                               (sample_world true [Some (face_message VNone)]))))
  = [].
Proof.
  refine (proj2 (face_data_flag_missing
           (sample_cfg false "2.1.0" "2.0.0") quiet_client sample_stringify
           (sample_world true [Some (face_message VNone)])
           (face_message VNone) [] eq_refl eq_refl eq_refl _)).
  discriminate.
Defined.

Lemma json_message_never_published_witness :
  publishes (trace (snd (drain (sample_cfg true "2.1.0" "2.0.0") quiet_client
                               sample_stringify
                               (sample_world true [Some (face_message VNone)]))))
  = [].
Proof.
  refine (proj1 (proj2 (json_message_never_published
           (sample_cfg true "2.1.0" "2.0.0") quiet_client sample_stringify
           (sample_world true [Some (face_message VNone)])
           (face_message VNone) [] eq_refl eq_refl eq_refl _))).
  discriminate.
Defined.

(** C5 does not hold as stated: the second call of [shutdown] changes the
    instance's trace, and the two calls sleep more than one second. *)
Lemma second_shutdown_sleeps_again :
  let w1 := snd (shutdown (sample_world true [])) in
  let w2 := snd (shutdown w1) in
  w2 <> w1 /\ ~ (slept (trace w2) <= 1)%Q.
Proof.
  simpl. split.
  - intros H. discriminate H.
  - unfold Qle. simpl. lia.
Qed.

(** C7 does not hold as stated for a malformed entry: the records before
    the malformed one are published. *)
Lemma malformed_predictions_still_publish :
  publish_face_values (sample_cfg false "2.1.0" "2.0.0") quiet_client
                      (face_message half_malformed) (sample_world true [])
  = (inr tt,
     after (sample_world true [])
           [ClientPublish "account" (VStr "age") (PVal (VInt 30));
            Log ERROR "Error publishing values: %s"
                [ArgExn (KeyError (VStr "faceAttributes"))]])
  /\ publishes (trace (snd (publish_face_values
                              (sample_cfg false "2.1.0" "2.0.0") quiet_client
                              (face_message half_malformed)
                              (sample_world true [])))) <> [].
Proof. split; [reflexivity | discriminate]. Qed.

(* ================================================================= *)
(** ** Properties of [LooseVersion] *)

Example loose_split_dotted :
  LooseVersion.make "2.10.0"
  = Some [LooseVersion.CInt 2; LooseVersion.CInt 10; LooseVersion.CInt 0].
Proof. reflexivity. Qed.

Example loose_split_mixed :
  LooseVersion.make "1.0-RC1b"
  = Some [LooseVersion.CInt 1; LooseVersion.CInt 0; LooseVersion.CStr "-RC";
          LooseVersion.CInt 1; LooseVersion.CStr "b"].
Proof. reflexivity. Qed.

(** Components compare as numbers, not as text. *)
Example loose_lt_numeric :
  LooseVersion.lt "2.9.0" "2.10.0" = inr true
  /\ LooseVersion.lt "2.10.0" "2.9.0" = inr false
  /\ LooseVersion.lt "2.1.0" "2.1.0" = inr false
  /\ LooseVersion.lt "2.1" "2.1.0" = inr true.
Proof. repeat split. Qed.

(** A number against a word does not compare. *)
Example loose_lt_mixed_raises :
  exists what, LooseVersion.lt "2.0.0" "2.0.b" = inl (TypeError what).
Proof. eexists. reflexivity. Qed.

(** No version compares less than itself. *)
Lemma loose_list_eqb_refl (v : list LooseVersion.Component) :
  LooseVersion.list_eqb v v = true.
Proof.
  induction v as [| c v IH]; simpl; [reflexivity |].
  rewrite IH. destruct c; simpl.
  - rewrite N.eqb_refl. reflexivity.
  - rewrite String.eqb_refl. reflexivity.
Qed.

Lemma loose_lt_irrefl (a : string) :
  a <> ""%string -> LooseVersion.lt a a = inr false.
Proof.
  intros Ha. unfold LooseVersion.lt, LooseVersion.make.
  apply String.eqb_neq in Ha. rewrite Ha. simpl.
  rewrite loose_list_eqb_refl. reflexivity.
Qed.

(* ================================================================= *)
(** ** Properties of [AzureImagePredictor] *)

Section PredictorProperties.

Import AzureImagePredictor.

Variable key : string.
Variable uri : string.
Variable post : string -> string -> Raised + Response.

(** X20. The result of [get_prediction] has exactly one key, ["predictions"] or
    ["error"], and the value under ["error"] is a string. *)
Lemma get_prediction_shape (imageBytes : string) :
  (exists v, fst (get_prediction key uri post imageBytes) = [("predictions"%string, v)])
  \/ (exists s, fst (get_prediction key uri post imageBytes)
                = [("error"%string, VStr s)]).
Proof.
  unfold get_prediction.
  destruct (_get_prediction key uri post imageBytes) as [[e | v] logs]; simpl.
  - right. eexists. reflexivity.
  - left. eexists. reflexivity.
Qed.

(** A subscription key of fewer than ten characters gives an ["error"]. *)
Lemma short_key_is_error (imageBytes : string) :
  (String.length key < 10)%nat ->
  fst (get_prediction key uri post imageBytes)
  = [("error"%string,
      VStr ("Azure subscription key - " ++ key ++ " - is not valid")%string)].
Proof.
  intros H. unfold get_prediction, _get_prediction.
  apply Nat.ltb_lt in H. rewrite H. reflexivity.
Qed.

(** C10, as the code behaves. With a valid key, a response whose status
    is not 200 raises [ValueError] inside the inner [try] of
    [_get_prediction]; its handler logs it and the method returns [None],
    which [get_prediction] stores under ["predictions"]. No ["error"] is
    reported. *)
Theorem non_200_reported_as_predictions (imageBytes : string) (r : Response) :
  (10 <= String.length key)%nat ->
  post (api_url uri) imageBytes = inr r ->
  status_code r <> 200 ->
  get_prediction key uri post imageBytes
  = ([("predictions"%string, VNone)],
     [LogError ("Request to Azure returned an error " ++ show_int (status_code r)
                ++ ", the response is:" ++ String "010" (text r))%string]).
Proof.
  intros Hk Hp Hs. unfold get_prediction, _get_prediction, request.
  replace (String.length key <? 10)%nat with false
    by (symmetry; apply Nat.ltb_ge; exact Hk).
  rewrite Hp. apply Z.eqb_neq in Hs. rewrite Hs. reflexivity.
Qed.

(** X22. When [requests.post] itself raises (the endpoint cannot be
    reached), the exception is logged and the result is [None] under
    ["predictions"], as for a response that is not 200. *)
Lemma failed_request_reported_as_predictions (imageBytes : string) (e : Raised) :
  (10 <= String.length key)%nat ->
  post (api_url uri) imageBytes = inl e ->
  get_prediction key uri post imageBytes
  = ([("predictions"%string, VNone)], [LogError (str e)]).
Proof.
  intros Hk Hp. unfold get_prediction, _get_prediction, request.
  replace (String.length key <? 10)%nat with false
    by (symmetry; apply Nat.ltb_ge; exact Hk).
  rewrite Hp. reflexivity.
Qed.

(** X21. A 200 response with a JSON body is returned under ["predictions"]
    and logged at debug level. *)
Lemma ok_response_is_predictions (imageBytes : string) (r : Response) (v : PyVal) :
  (10 <= String.length key)%nat ->
  post (api_url uri) imageBytes = inr r ->
  status_code r = 200 ->
  json r = inr v ->
  get_prediction key uri post imageBytes
  = ([("predictions"%string, v)], [LogDebug "Got azure data %s" v]).
Proof.
  intros Hk Hp Hs Hj. unfold get_prediction, _get_prediction, request.
  replace (String.length key <? 10)%nat with false
    by (symmetry; apply Nat.ltb_ge; exact Hk).
  rewrite Hp, Hs, Hj. reflexivity.
Qed.

End PredictorProperties.

Lemma non_200_reported_as_predictions_witness :
  AzureImagePredictor.get_prediction
    "0123456789abcdef" "westus.api.cognitive.microsoft.com" failing_endpoint "image"
  = ([("predictions"%string, VNone)],
     [AzureImagePredictor.LogError
        ("Request to Azure returned an error 500, the response is:"
         ++ String "010" "Internal Server Error")%string]).
Proof.
  refine (non_200_reported_as_predictions
            "0123456789abcdef" "westus.api.cognitive.microsoft.com"
            failing_endpoint "image" _ _ eq_refl _).
  - simpl. lia.
  - discriminate.
Defined.

(** The two scalar attributes of one face go out under their own names, in
    order. *)
Example face_values_two_attributes :
  publishes (trace (snd (publish_face_values
    (sample_cfg false "2.1.0" "2.0.0") quiet_client
    (face_message
       (VDict [("predictions"%string,
                VList [VDict [("faceAttributes"%string,
                               VDict [("age"%string, VInt 30);
                                      ("gender"%string, VStr "male")])]])]))
    (sample_world true []))))
  = [ClientPublish "account" (VStr "age") (PVal (VInt 30));
     ClientPublish "account" (VStr "gender") (PVal (VStr "male"))].
Proof. reflexivity. Qed.

(** A nested attribute goes out as the mean of its values. *)
Example face_values_emotion :
  publishes (trace (snd (publish_face_values
    (sample_cfg false "2.1.0" "2.0.0") quiet_client
    (face_message
       (VDict [("predictions"%string,
                VList [VDict [("faceAttributes"%string,
                               VDict [("emotion"%string,
                                       VDict [("happy"%string,
                                               VFloat (float_literal 8 10));
                                              ("sad"%string,
                                               VFloat (float_literal 2 10))])])]])]))
    (sample_world true []))))
  = [ClientPublish "account" (VStr "emotion")
                   (PVal (VFloat (float_literal 1 2)))].
Proof. reflexivity. Qed.

(** An empty nested attribute ends the traversal of the message: the
    exception of [flatten_dict] is the one logged by [publish_face_values],
    and the attributes after it are not published. *)
Example face_values_empty_attribute :
  trace (snd (publish_face_values
    (sample_cfg false "2.1.0" "2.0.0") quiet_client
    (face_message
       (VDict [("predictions"%string,
                VList [VDict [("faceAttributes"%string,
                               VDict [("emotion"%string, VDict []);
                                      ("age"%string, VInt 30)])]])]))
    (sample_world true [])))
  = [Log ERROR "Error flattening dict, returning 0: %s" [ArgExn ZeroDivisionError];
     Log ERROR "Error publishing values: %s" [ArgExn (UnboundLocalError "val")]].
Proof. reflexivity. Qed.

(** A whole loop: the broker acknowledges in the first turn, a message
    arrives and is lost to the unbound [_feedName], and the shutdown command
    ends the loop before the last turn. *)
Example loop_to_shutdown :
  process_queue (sample_cfg true "2.1.0" "2.1.0") quiet_client sample_stringify
      [{| arrivals := [Some (face_message VNone); Some shutdown_message];
          callbacks := [OnConnect 0] |};
       idle; idle]
      (sample_world false [])
  = (inr (Some tt),
     {| alive := false; exit := true; mqttConnected := true; inQueue := [];
        trace :=
          [ClientLoop 1;
           Log DEBUG "MQTT onConnect called" [];
           Log ERROR "MQTT unable to read queue : %s "
               [ArgExn (NameError "_feedName")];
           ClientLoop 1;
           Log DEBUG "SHUTDOWN command handled" [];
           Log INFO "Shutting down" [];
           Sleep 1] |}).
Proof. reflexivity. Qed.

(* ================================================================= *)
(** ** What the loop is seen to do *)

Section Growth.

Variable P : Event -> bool.

(** A computation that leaves the trace alone. *)
Lemma grows_still {A : Type} (m : M A) :
  (forall w, trace (snd (m w)) = trace w) -> grows_by P m.
Proof.
  intros H w. exists []. rewrite H, app_nil_r. split; reflexivity.
Qed.

Lemma grows_emit (ev : Event) : P ev = true -> grows_by P (emit ev).
Proof.
  intros H w. exists [ev]. simpl. rewrite H. split; reflexivity.
Qed.

Lemma grows_bind {A B : Type} (m : M A) (k : A -> M B) :
  grows_by P m -> (forall a, grows_by P (k a)) -> grows_by P (bind m k).
Proof.
  intros Hm Hk w. unfold bind.
  destruct (Hm w) as [evs1 [E1 F1]].
  destruct (m w) as [[e | a] w1]; simpl in *.
  - exists evs1. split; assumption.
  - destruct (Hk a w1) as [evs2 [E2 F2]].
    exists (evs1 ++ evs2). rewrite E2, E1, app_assoc, forallb_app, F1, F2.
    split; reflexivity.
Qed.

Lemma grows_try {A : Type} (body : M A) (handler : Exn -> M A) :
  grows_by P body -> (forall e, grows_by P (handler e)) ->
  grows_by P (try_except body handler).
Proof.
  intros Hb Hh w. unfold try_except.
  destruct (Hb w) as [evs1 [E1 F1]].
  destruct (body w) as [[e | a] w1]; simpl in *.
  - destruct (Hh e w1) as [evs2 [E2 F2]].
    exists (evs1 ++ evs2). rewrite E2, E1, app_assoc, forallb_app, F1, F2.
    split; reflexivity.
  - exists evs1. split; assumption.
Qed.

Lemma grows_for_each {A : Type} (xs : list A) (body : A -> M unit) :
  (forall x, grows_by P (body x)) -> grows_by P (for_each xs body).
Proof.
  intros Hb. induction xs as [| x xs IH]; simpl.
  - apply grows_still. reflexivity.
  - apply grows_bind; [apply Hb | intros _; exact IH].
Qed.

Lemma grows_call_client (client : list Event -> Event -> option Exn)
      (ev : Event) :
  P ev = true -> grows_by P (call_client client ev).
Proof.
  intros H w. unfold call_client. exists [ev].
  destruct (client (trace w) ev); simpl; rewrite H; split; reflexivity.
Qed.

End Growth.

Lemma grows_weaken {A : Type} (P Q : Event -> bool) (m : M A) :
  (forall ev, P ev = true -> Q ev = true) -> grows_by P m -> grows_by Q m.
Proof.
  intros HPQ Hm w. destruct (Hm w) as [evs [E F]]. exists evs.
  split; [exact E |].
  rewrite forallb_forall in *. intros ev Hin. apply HPQ, F, Hin.
Qed.

Lemma loop_event_no_publish (evs : list Event) :
  forallb loop_event evs = true -> publishes evs = [].
Proof.
  induction evs as [| ev evs IH]; simpl; [reflexivity |].
  intros H. apply andb_prop in H. destruct H as [H1 H2].
  destruct ev; simpl in *; try discriminate; apply IH; exact H2.
Qed.

Section LoopGrowth.

Variable cfg : Config.
Variable client : list Event -> Event -> option Exn.
Variable stringify : Message -> Result string.

Lemma grows_shutdown : grows_by loop_event shutdown.
Proof.
  unfold shutdown, log, sleep.
  repeat (apply grows_bind; [| intros _]);
    try (apply grows_emit; reflexivity);
    apply grows_still; reflexivity.
Qed.

(** [publish_json_message] ends at the unbound [_feedName] before
    anything is added to the trace. *)
Lemma json_message_trace (m : Message) (w : World) :
  trace (snd (publish_json_message cfg client stringify m w)) = trace w.
Proof.
  unfold publish_json_message, bind, lift.
  destruct (stringify m); reflexivity.
Qed.

Lemma grows_handle (message : option Message) :
  grows_by loop_event (handle cfg client stringify message).
Proof.
  unfold handle. apply grows_bind; [apply grows_still; reflexivity |].
  intros connected. destruct message as [m |]; [| apply grows_still; reflexivity].
  destruct connected; [| apply grows_still; reflexivity].
  destruct (String.eqb (upper (topic m)) "SHUTDOWN").
  - apply grows_bind; [apply grows_emit; reflexivity | intros _].
    apply grows_shutdown.
  - destruct (MqttPublishJson cfg).
    + apply grows_still. apply json_message_trace.
    + apply grows_still. reflexivity.
Qed.

Lemma grows_drain : grows_by loop_event (drain cfg client stringify).
Proof.
  unfold drain. apply grows_bind; [apply grows_still; reflexivity |].
  intros q. destruct q as [| m q].
  - apply grows_emit. reflexivity.
  - apply grows_try.
    + apply grows_bind.
      * unfold queue_get. apply grows_bind; [apply grows_still; reflexivity |].
        intros q'. destruct q'; apply grows_still; reflexivity.
      * intros message. apply grows_handle.
    + intros e. apply grows_emit. reflexivity.
Qed.

Lemma grows_deliver (cb : Callback) : grows_by loop_event (deliver cb).
Proof.
  destruct cb as [rc | rc |]; simpl.
  - unfold on_connect. apply grows_bind; [apply grows_emit; reflexivity |].
    intros _. destruct (rc =? 0).
    + apply grows_still. reflexivity.
    + apply grows_bind; [apply grows_emit; reflexivity |].
      intros _. apply grows_still. reflexivity.
  - unfold on_disconnect.
    apply grows_bind; [apply grows_emit; reflexivity |]. intros _.
    apply grows_bind; [apply grows_still; reflexivity |]. intros _.
    destruct (negb (rc =? 0)).
    + apply grows_bind; [apply grows_emit; reflexivity |].
      intros _. apply grows_still. reflexivity.
    + apply grows_still. reflexivity.
  - apply grows_emit. reflexivity.
Qed.

Lemma grows_iteration (t : Tick) :
  grows_by loop_event (iteration cfg client stringify t).
Proof.
  unfold iteration, enqueue, pump.
  apply grows_bind.
  { apply grows_bind; [apply grows_still; reflexivity |].
    intros q. apply grows_still. reflexivity. }
  intros _. apply grows_bind.
  { apply grows_bind; [apply grows_call_client; reflexivity |].
    intros _. apply grows_for_each. apply grows_deliver. }
  intros _. apply grows_drain.
Qed.

Lemma grows_process_queue (ticks : list Tick) :
  grows_by loop_event (process_queue cfg client stringify ticks).
Proof.
  induction ticks as [| t ticks IH]; simpl.
  - apply grows_bind; [apply grows_still; reflexivity |].
    intros running. destruct running; apply grows_still; reflexivity.
  - apply grows_bind; [apply grows_still; reflexivity |].
    intros running. destruct running; [| apply grows_still; reflexivity].
    apply grows_bind; [apply grows_iteration | intros _; exact IH].
Qed.

(** X1. Whatever the configuration, the client and the turns, the loop
    adds to the trace only log records, sleeps and calls of
    [client.loop]: it never publishes, subscribes, connects or
    disconnects. *)
Theorem loop_only_pumps (ticks : list Tick) (w : World) :
  exists evs,
    trace (snd (process_queue cfg client stringify ticks w)) = trace w ++ evs
    /\ forallb loop_event evs = true
    /\ publishes (trace (snd (process_queue cfg client stringify ticks w)))
       = publishes (trace w).
Proof.
  destruct (grows_process_queue ticks w) as [evs [E F]].
  exists evs. repeat split; try assumption.
  rewrite E, publishes_app.
  rewrite (loop_event_no_publish evs); [apply app_nil_r | exact F].
Qed.

End LoopGrowth.

(* ================================================================= *)
(** ** The queue, the flags and the callbacks *)

Lemma after_nil (w : World) : after w [] = w.
Proof. destruct w. unfold after. simpl. rewrite app_nil_r. reflexivity. Qed.

Lemma after_after (w : World) (evs1 evs2 : list Event) :
  after (after w evs1) evs2 = after w (evs1 ++ evs2).
Proof. unfold after. simpl. rewrite app_assoc. reflexivity. Qed.

Section Worker.

Variable cfg : Config.
Variable client : list Event -> Event -> option Exn.
Variable stringify : Message -> Result string.

(** X3. The queue branch of the loop never raises, takes exactly the
    head message off the queue whatever becomes of it (handled, dropped or
    failed), and leaves [mqttConnected] as it was. *)
Theorem drain_consumes_head (w : World) :
  fst (drain cfg client stringify w) = inr tt
  /\ inQueue (snd (drain cfg client stringify w)) = tl (inQueue w)
  /\ mqttConnected (snd (drain cfg client stringify w)) = mqttConnected w.
Proof.
  destruct w as [al ex conn q tr].
  destruct q as [| [m |] q]; unfold drain, try_except, bind;
    cbn -[String.eqb upper].
  - repeat split.
  - destruct conn; cbn -[String.eqb upper]; [| repeat split].
    destruct (String.eqb (upper (topic m)) "SHUTDOWN"); [repeat split |].
    destruct (MqttPublishJson cfg); [| repeat split].
    unfold publish_json_message, bind, lift.
    destruct (stringify m); repeat split.
  - destruct conn; repeat split.
Qed.

(** X4. When [process_queue] returns, [alive] is false; when the turns
    run out first, [alive] is still true. *)
Theorem loop_exit_flag (ticks : list Tick) (w w' : World) (ended : option unit) :
  process_queue cfg client stringify ticks w = (inr ended, w') ->
  alive w' = match ended with Some _ => false | None => true end.
Proof.
  revert w. induction ticks as [| t ticks IH]; intros w; simpl;
    unfold bind at 1, get_alive; simpl; destruct (alive w) eqn:Ha.
  - intros H. inversion H. subst. exact Ha.
  - intros H. inversion H. subst. exact Ha.
  - unfold bind.
    destruct (iteration cfg client stringify t w) as [[e | []] w1];
      [discriminate |].
    apply IH.
  - intros H. inversion H. subst. exact Ha.
Qed.

(** X5. A connection the broker refuses (a non-zero code handed to
    [on_connect] during [client.loop]) raises [RuntimeError] out of
    [process_queue]: the loop has no handler around [client.loop], the
    queue is not read in that turn and the later turns do not run. *)
Theorem refused_connection_leaves_loop
        (a : list (option Message)) (cbs : list Callback) (ticks : list Tick)
        (rc : Z) (w : World) :
  alive w = true ->
  rc <> 0 ->
  client (trace w) (ClientLoop 1) = None ->
  process_queue cfg client stringify
                ({| arrivals := a; callbacks := OnConnect rc :: cbs |} :: ticks) w
  = (inl (RuntimeError "MQTT failed to connect: %s" rc),
     {| alive := true; exit := exit w; mqttConnected := mqttConnected w;
        inQueue := inQueue w ++ a;
        trace := trace w ++ [ClientLoop 1;
                             Log DEBUG "MQTT onConnect called" [];
                             Log ERROR "MQTT failed to connect: %s" [ArgInt rc]] |}).
Proof.
  intros Ha Hrc Hl. destruct w as [al ex conn q tr]. simpl in *. subst.
  apply Z.eqb_neq in Hrc.
  unfold bind at 1. simpl.
  unfold iteration, enqueue, pump, call_client, bind. simpl. rewrite Hl.
  simpl. unfold on_connect, bind. simpl. rewrite Hrc. simpl.
  rewrite <- !app_assoc. reflexivity.
Qed.

(** X6. A disconnect reported during [client.loop] takes effect in the
    same turn: the message read next is dropped, even the shutdown command,
    [alive] keeps its value and nothing tries to reconnect. *)
Theorem disconnect_drops_next_message
        (rc : Z) (w : World) (m : option Message) (q : list (option Message)) :
  inQueue w = m :: q ->
  client (trace w) (ClientLoop 1) = None ->
  iteration cfg client stringify
            {| arrivals := []; callbacks := [OnDisconnect rc] |} w
  = (inr tt,
     {| alive := alive w; exit := exit w; mqttConnected := false;
        inQueue := q;
        trace := trace w
                 ++ [ClientLoop 1; Log DEBUG "MQTT onDisconnect called" []]
                 ++ (if rc =? 0 then []
                     else [Log DEBUG "MQTT disconnected unexpectedly: %s"
                               [ArgInt rc]]) |}).
Proof.
  intros Hq Hl. destruct w as [al ex conn q0 tr]. simpl in *. subst.
  unfold iteration, enqueue, pump, call_client, drain, try_except, bind.
  simpl. rewrite Hl. simpl. unfold on_disconnect, bind. simpl.
  destruct (rc =? 0); simpl; rewrite (app_nil_r q), <- ?app_assoc;
    destruct m; reflexivity.
Qed.

(** An idle turn on a disconnected instance drops the head of the
    queue. *)
Lemma idle_turn_disconnected (w : World) :
  mqttConnected w = false ->
  client (trace w) (ClientLoop 1) = None ->
  exists evs,
    iteration cfg client stringify idle w
    = (inr tt, {| alive := alive w; exit := exit w; mqttConnected := false;
                  inQueue := tl (inQueue w); trace := trace w ++ evs |}).
Proof.
  intros Hc Hl. destruct w as [al ex conn q tr]. simpl in *. subst.
  unfold iteration, idle, enqueue, pump, call_client, drain, try_except, bind.
  simpl. rewrite Hl. simpl. rewrite (app_nil_r q).
  destruct q as [| [m |] q]; unfold sleep, emit; cbn; eexists;
    rewrite <- ?app_assoc; reflexivity.
Qed.

Lemma process_queue_out_of_turns (w : World) :
  alive w = true ->
  process_queue cfg client stringify [] w = (inr None, w).
Proof. intros Ha. simpl. unfold bind, get_alive. rewrite Ha. reflexivity. Qed.

Lemma process_queue_turn (t : Tick) (ticks : list Tick) (w w1 : World) :
  alive w = true ->
  iteration cfg client stringify t w = (inr tt, w1) ->
  process_queue cfg client stringify (t :: ticks) w
  = process_queue cfg client stringify ticks w1.
Proof.
  intros Ha Hi. simpl. unfold bind at 1, get_alive. rewrite Ha.
  unfold bind at 1. rewrite Hi. reflexivity.
Qed.

(** X7. A disconnected instance whose client stays silent reads one
    message per turn and drops it: after [n] idle turns the first [n]
    messages are gone, the loop is still running and [alive] is still true,
    so a shutdown command among them is lost. *)
Theorem disconnected_worker_discards (n : nat) (w : World) :
  alive w = true ->
  mqttConnected w = false ->
  (forall tr, client tr (ClientLoop 1) = None) ->
  fst (process_queue cfg client stringify (repeat idle n) w) = inr None
  /\ alive (snd (process_queue cfg client stringify (repeat idle n) w)) = true
  /\ mqttConnected (snd (process_queue cfg client stringify (repeat idle n) w))
     = false
  /\ inQueue (snd (process_queue cfg client stringify (repeat idle n) w))
     = skipn n (inQueue w).
Proof.
  intros Ha Hc Hl. revert w Ha Hc.
  induction n as [| n IH]; intros w Ha Hc; simpl repeat.
  - rewrite (process_queue_out_of_turns w Ha). simpl.
    repeat split; assumption.
  - destruct (idle_turn_disconnected w Hc (Hl (trace w))) as [evs E].
    rewrite (process_queue_turn idle (repeat idle n) w _ Ha E).
    match goal with
    | |- context [process_queue _ _ _ _ ?w1] =>
        destruct (IH w1 Ha eq_refl) as [I1 [I2 [I3 I4]]]
    end.
    rewrite I1, I2, I3, I4. simpl inQueue.
    repeat split. destruct (inQueue w); [destruct n |]; reflexivity.
Qed.

End Worker.

(* ================================================================= *)
(** ** Publishing with an explicit feed *)

Section FaceValues.

Variable cfg : Config.
Variable client : list Event -> Event -> option Exn.

(** The client accepts every call. *)
Hypothesis silent : forall tr ev, client tr ev = None.

Lemma publish_face_values_unfold (m : Message) :
  publish_face_values cfg client m
  = try_except
      (bind (lift (getitem (extended_data m) (VStr "predictions")))
            (fun predictions =>
               bind (lift (py_iter predictions))
                    (fun faces => for_each faces (publish_face cfg client))))
      (fun e => log ERROR "Error publishing values: %s" [ArgExn e]).
Proof. reflexivity. Qed.

Lemma publish_attr_scalar (d : list (string * PyVal)) (k : string) (v : PyVal)
      (w : World) :
  lookup k d = Some v -> k <> ""%string -> is_dict v = false ->
  publish_attr cfg client (VDict d) (VStr k) w
  = (inr tt, after w [ClientPublish (MqttUsername cfg) (VStr k) (PVal v)]).
Proof.
  intros Hl Hk Hd. apply String.eqb_neq in Hk.
  unfold publish_attr, bind, lift. simpl. rewrite Hl. rewrite Hd.
  unfold publish, default_feed, bind, call_client. simpl. rewrite Hk. simpl.
  rewrite silent. reflexivity.
Qed.

Lemma publish_attrs_scalar (d part : list (string * PyVal)) (w : World) :
  NoDup (map fst d) ->
  incl part d ->
  Forall (fun kv => fst kv <> ""%string /\ is_dict (snd kv) = false) part ->
  for_each (map (fun kv => VStr (fst kv)) part) (publish_attr cfg client (VDict d)) w
  = (inr tt, after w (attr_publishes (MqttUsername cfg) part)).
Proof.
  intros Hnd Hincl Hall. revert w Hincl.
  induction Hall as [| [k v] part [Hk Hd] Hall IH]; intros w Hincl; simpl.
  - rewrite after_nil. reflexivity.
  - unfold bind.
    rewrite (publish_attr_scalar d k v w
               (lookup_In d k v Hnd (Hincl _ (in_eq _ _))) Hk Hd).
    rewrite IH by (intros x Hx; apply Hincl; right; exact Hx).
    rewrite after_after. reflexivity.
Qed.

Lemma publish_faces_scalar (faces : list PyVal)
      (attrs : list (list (string * PyVal))) (w : World) :
  Forall2 (fun face d => getitem face (VStr "faceAttributes") = inr (VDict d))
          faces attrs ->
  Forall scalar_attrs attrs ->
  for_each faces (publish_face cfg client) w
  = (inr tt, after w (flat_map (attr_publishes (MqttUsername cfg)) attrs)).
Proof.
  intros Hf. revert w.
  induction Hf as [| face d faces attrs Hface Hf IH]; intros w Hs; simpl.
  - rewrite after_nil. reflexivity.
  - inversion Hs as [| ? ? [Hnd Hall] Hs']; subst.
    unfold bind at 1. unfold publish_face at 1. unfold bind, lift.
    rewrite Hface. simpl.
    rewrite (publish_attrs_scalar d d w Hnd (incl_refl d) Hall).
    rewrite (IH _ Hs'), after_after. reflexivity.
Qed.

(** X8. When every face of ["predictions"] carries a [faceAttributes]
    dict with distinct, non-empty keys and values that are not dicts, and
    the client accepts the calls, [publish_face_values] returns normally
    having made exactly one [client.publish] call per attribute, face by
    face and in the order of the dict, with the attribute's name as feed and
    its value as payload; nothing is logged. *)
Theorem face_values_scalars
        (m : Message) (faces : list PyVal) (attrs : list (list (string * PyVal)))
        (w : World) :
  getitem (extended_data m) (VStr "predictions") = inr (VList faces) ->
  Forall2 (fun face d => getitem face (VStr "faceAttributes") = inr (VDict d))
          faces attrs ->
  Forall scalar_attrs attrs ->
  publish_face_values cfg client m w
  = (inr tt, after w (flat_map (attr_publishes (MqttUsername cfg)) attrs)).
Proof.
  intros Hp Hf Hs. rewrite publish_face_values_unfold.
  unfold try_except, bind, lift. rewrite Hp. simpl.
  rewrite (publish_faces_scalar faces attrs w Hf Hs). reflexivity.
Qed.

(** X9. Let the client accept every call, and let the first face carry a
    [faceAttributes] dict with distinct keys in which an attribute named by
    the empty string, whose value is not a dict, comes after attributes with
    non-empty names and values that are not dicts. Then
    [publish_face_values] publishes the attributes before it, falls into the
    unbound [_feedName] at the empty name, logs that [NameError] and returns:
    neither that attribute nor any attribute or face after it is
    published. *)
Theorem empty_attribute_name_stops_face
        (m : Message) (face : PyVal) (before rest : list (string * PyVal))
        (v : PyVal) (others : list PyVal) (w : World) :
  let d := before ++ (""%string, v) :: rest in
  getitem (extended_data m) (VStr "predictions") = inr (VList (face :: others)) ->
  getitem face (VStr "faceAttributes") = inr (VDict d) ->
  scalar_attrs before ->
  NoDup (map fst d) ->
  is_dict v = false ->
  publish_face_values cfg client m w
  = (inr tt,
     after w (attr_publishes (MqttUsername cfg) before
              ++ [Log ERROR "Error publishing values: %s"
                      [ArgExn (NameError "_feedName")]])).
Proof.
  intros d Hp Hface [_ Hall] Hnd Hv. rewrite publish_face_values_unfold.
  unfold try_except, bind at 1 2, lift. rewrite Hp. simpl.
  assert (Hstep : forall part w0, incl part d ->
            Forall (fun kv => fst kv <> ""%string /\ is_dict (snd kv) = false) part ->
            for_each (map (fun kv => VStr (fst kv)) part ++ VStr "" ::
                      map (fun kv => VStr (fst kv)) rest)
                     (publish_attr cfg client (VDict d)) w0
            = (inl (NameError "_feedName"),
               after w0 (attr_publishes (MqttUsername cfg) part))).
  { intros part w0 Hincl Hpart. revert w0 Hincl.
    induction Hpart as [| [k x] part [Hk Hd] Hpart IH]; intros w0 Hincl; simpl.
    - unfold bind at 1. unfold publish_attr, bind, lift. simpl.
      rewrite (lookup_In d "" v Hnd) by (unfold d; apply in_elt).
      rewrite Hv. unfold publish, default_feed, bind. simpl.
      rewrite after_nil. reflexivity.
    - unfold bind at 1.
      rewrite (publish_attr_scalar d k x w0
                 (lookup_In d k x Hnd (Hincl _ (in_eq _ _))) Hk Hd).
      rewrite IH by (intros y Hy; apply Hincl; right; exact Hy).
      rewrite after_after. reflexivity. }
  assert (Hf : publish_face cfg client face w
               = (inl (NameError "_feedName"),
                  after w (attr_publishes (MqttUsername cfg) before))).
  { unfold publish_face, bind at 1 2, lift. rewrite Hface. simpl.
    unfold d at 1. rewrite map_app. simpl map.
    apply Hstep; [unfold d; apply incl_appl, incl_refl | exact Hall]. }
  unfold bind. rewrite Hf.
  unfold log, emit, after. simpl. rewrite <- app_assoc. reflexivity.
Qed.

End FaceValues.

(* ================================================================= *)
(** ** The default feed name, [flatten_dict] and the version gate *)

(** X12. [flatten_dict] has two outcomes only: it returns a value and
    leaves the instance and the trace untouched, or it logs the error of the
    average and raises [UnboundLocalError]. It never returns after an
    error. *)
Theorem flatten_dict_outcomes (aDict : PyVal) (w : World) :
  (exists v, flatten_dict aDict w = (inr v, w))
  \/ (exists e,
        flatten_dict aDict w
        = (inl (UnboundLocalError "val"),
           after w [Log ERROR "Error flattening dict, returning 0: %s"
                        [ArgExn e]])).
Proof.
  unfold flatten_dict, flatten_dict_try, try_except, bind, lift.
  destruct (py_iter aDict) as [e | keys]; simpl;
    [right; exists e; reflexivity |].
  destruct (sum_items aDict keys (NInt 0)) as [e | total]; simpl;
    [right; exists e; reflexivity |].
  destruct (py_float total) as [e | x]; simpl;
    [right; exists e; reflexivity |].
  destruct (py_len aDict) as [e | n]; simpl;
    [right; exists e; reflexivity |].
  destruct (py_truediv x n) as [e | val]; simpl.
  - right. exists e. reflexivity.
  - left. eexists. reflexivity.
Qed.

Section VersionGate.

Variable cfg : Config.
Variable client : list Event -> Event -> option Exn.
Variable stringify : Message -> Result string.

(** X13. The gate accepts the minimum version itself: when the running
    version is the declared minimum, [check_ss_version] returns [True] and
    logs the module version only. *)
Theorem minimum_version_accepted (w : World) :
  ss_version cfg = MinSimpleSensorVersion cfg ->
  ss_version cfg <> ""%string ->
  check_ss_version cfg w
  = (inr true, after w [Log INFO "Module version %s" [ArgStr (__version__ cfg)]]).
Proof.
  intros Heq Hne. unfold check_ss_version, bind, lift, log, emit. simpl.
  rewrite <- Heq. unfold LooseVersion.lt, LooseVersion.make.
  apply String.eqb_neq in Hne. rewrite Hne. simpl.
  replace (LooseVersion.list_eqb _ _) with true; [reflexivity |].
  symmetry. generalize (LooseVersion.components (LooseVersion.split (ss_version cfg))).
  intros v. induction v as [| c v IH]; simpl; [reflexivity |].
  rewrite IH. destruct c; simpl;
    [rewrite N.eqb_refl | rewrite String.eqb_refl]; reflexivity.
Qed.

(** X14. When the two versions do not compare (a number against a word,
    or an empty version string), the exception of the comparison leaves
    [check_ss_version] unhandled, after the record of the module version and
    before any verdict is logged. *)
Theorem incomparable_versions_raise (w : World) (e : Exn) :
  LooseVersion.lt (ss_version cfg) (MinSimpleSensorVersion cfg) = inl e ->
  check_ss_version cfg w
  = (inl e, after w [Log INFO "Module version %s" [ArgStr (__version__ cfg)]]).
Proof.
  intros H. unfold check_ss_version, bind, lift, log, emit. simpl.
  rewrite H. reflexivity.
Qed.

End VersionGate.

(* ================================================================= *)
(** ** Order on loose versions *)

Module LooseOrder.

Import LooseVersion.

Lemma split_from_numeric (s : string) (cur : option (CharClass * string)) :
  dotted_numeric s = true ->
  match cur with Some r => numeric_class (fst r) = true | None => True end ->
  Forall (fun r => numeric_class (fst r) = true) (split_from cur s).
Proof.
  unfold dotted_numeric. revert cur.
  induction s as [| c s IH]; intros cur Hs Hcur; simpl in *.
  - destruct cur; constructor; [exact Hcur | constructor].
  - apply andb_prop in Hs. destruct Hs as [Hc Hs].
    assert (Hk : numeric_class (classify c) = true) by exact Hc.
    destruct cur as [[k' run] |].
    + destruct (same_run (classify c) k').
      * apply IH; assumption.
      * constructor; [exact Hcur |]. apply IH; assumption.
    + apply IH; assumption.
Qed.

Lemma components_numeric (rs : list (CharClass * string)) :
  Forall (fun r => numeric_class (fst r) = true) rs ->
  forallb is_int (components rs) = true.
Proof.
  induction 1 as [| [k run] rs Hk _ IH]; simpl; [reflexivity |].
  unfold component. simpl in *. destruct k; try discriminate; simpl; exact IH.
Qed.

Lemma list_eqb_sym (a b : list Component) : list_eqb a b = list_eqb b a.
Proof.
  revert b. induction a as [| x a IH]; destruct b as [| y b]; simpl;
    try reflexivity.
  rewrite IH. f_equal.
  destruct x, y; simpl; try reflexivity;
    [apply N.eqb_sym | apply String.eqb_sym].
Qed.

Lemma comp_eqb_sym (x y : Component) : comp_eqb x y = comp_eqb y x.
Proof.
  destruct x, y; simpl; try reflexivity;
    [apply N.eqb_sym | apply String.eqb_sym].
Qed.

Lemma string_ltb_asym (s t : string) :
  String.ltb s t = true -> String.ltb t s = false.
Proof.
  unfold String.ltb. rewrite (String.compare_antisym t s).
  destruct (String.compare s t); simpl; congruence.
Qed.

Lemma list_ltb_asym (a b : list Component) :
  list_ltb a b = inr true -> list_ltb b a = inr false.
Proof.
  revert b. induction a as [| x a IH]; destruct b as [| y b]; simpl;
    try congruence.
  rewrite (comp_eqb_sym y x).
  destruct (comp_eqb x y) eqn:E; [apply IH |].
  destruct x, y; simpl; try discriminate; intros H; inversion H as [H'];
    f_equal.
  - apply N.ltb_lt in H'. apply N.ltb_ge. lia.
  - apply string_ltb_asym. exact H'.
Qed.

(** On lists of integers [<] always answers, and one of [==], [<], [>]
    holds. *)
Lemma list_ltb_numeric (a b : list Component) :
  forallb is_int a = true -> forallb is_int b = true ->
  (exists r, list_ltb a b = inr r)
  /\ (list_eqb a b = false -> list_ltb a b = inr false ->
      list_ltb b a = inr true).
Proof.
  revert b. induction a as [| x a IH]; destruct b as [| y b]; simpl;
    intros Ha Hb.
  - split; [eexists; reflexivity | discriminate].
  - split; [eexists; reflexivity | discriminate].
  - split; [eexists; reflexivity | reflexivity].
  - apply andb_prop in Ha. destruct Ha as [Hx Ha].
    apply andb_prop in Hb. destruct Hb as [Hy Hb].
    destruct x as [x |]; [| discriminate]. destruct y as [y |]; [| discriminate].
    simpl. rewrite (N.eqb_sym y x).
    destruct (N.eqb x y) eqn:E; simpl.
    + apply IH; assumption.
    + split; [eexists; reflexivity |].
      intros _ H. inversion H as [H']. f_equal.
      apply N.eqb_neq in E. apply N.ltb_ge in H'. apply N.ltb_lt. lia.
Qed.

End LooseOrder.

(** X15. Two version strings made of digits and dots only always
    compare: [LooseVersion.lt] answers and does not raise. *)
Theorem numeric_versions_compare (a b : string) :
  dotted_numeric a = true -> dotted_numeric b = true ->
  a <> ""%string -> b <> ""%string ->
  exists r, LooseVersion.lt a b = inr r.
Proof.
  intros Ha Hb Hna Hnb.
  unfold LooseVersion.lt, LooseVersion._cmp, LooseVersion.make.
  apply String.eqb_neq in Hna, Hnb. rewrite Hna, Hnb.
  assert (Ia : forallb is_int (LooseVersion.components (LooseVersion.split a)) = true)
    by (apply LooseOrder.components_numeric, LooseOrder.split_from_numeric;
        [exact Ha | exact I]).
  assert (Ib : forallb is_int (LooseVersion.components (LooseVersion.split b)) = true)
    by (apply LooseOrder.components_numeric, LooseOrder.split_from_numeric;
        [exact Hb | exact I]).
  destruct (LooseOrder.list_ltb_numeric _ _ Ia Ib) as [[r Hr] Htri].
  destruct (LooseVersion.list_eqb _ _) eqn:E; [eexists; reflexivity |].
  rewrite Hr. destruct r; [eexists; reflexivity |].
  rewrite (Htri eq_refl Hr). eexists. reflexivity.
Qed.

(** X16. The comparison is asymmetric: when [a] compares less than [b],
    [b] does not compare less than [a], so the gate cannot reject both
    orders of a pair. *)
Theorem loose_lt_asym (a b : string) :
  LooseVersion.lt a b = inr true -> LooseVersion.lt b a = inr false.
Proof.
  unfold LooseVersion.lt, LooseVersion._cmp.
  destruct (LooseVersion.make a) as [va |], (LooseVersion.make b) as [vb |];
    try discriminate.
  rewrite (LooseOrder.list_eqb_sym vb va).
  destruct (LooseVersion.list_eqb va vb); [discriminate |].
  destruct (LooseVersion.list_ltb va vb) as [e | [|]] eqn:E; try discriminate.
  - intros _. rewrite (LooseOrder.list_ltb_asym va vb E). reflexivity.
  - destruct (LooseVersion.list_ltb vb va) as [e | [|]]; discriminate.
Qed.

(* ================================================================= *)
(** ** What [get_prediction] reports *)

(** X17. [get_prediction] reports an ["error"] exactly when the
    subscription key has fewer than ten characters; every failure of the
    request itself ends under ["predictions"]. *)
Theorem error_only_for_short_key
        (key uri : string)
        (post : string -> string ->
                AzureImagePredictor.Raised + AzureImagePredictor.Response)
        (imageBytes : string) :
  (exists s, fst (AzureImagePredictor.get_prediction key uri post imageBytes)
             = [("error"%string, VStr s)])
  <-> (String.length key < 10)%nat.
Proof.
  unfold AzureImagePredictor.get_prediction, AzureImagePredictor._get_prediction.
  destruct (String.length key <? 10)%nat eqn:E.
  - apply Nat.ltb_lt in E. split; [intros _; exact E |].
    intros _. eexists. reflexivity.
  - apply Nat.ltb_ge in E. split; [| lia].
    intros [s H]. exfalso.
    destruct (AzureImagePredictor.request uri post imageBytes) as [[e | v] logs];
      simpl in H; discriminate H.
Qed.

(* ================================================================= *)
(** ** Instances *)

Lemma loop_exit_flag_witness :
  alive (snd (process_queue (sample_cfg true "2.1.0" "2.0.0") quiet_client
                            sample_stringify
                            [{| arrivals := [Some shutdown_message];
                                callbacks := [] |}; idle]
                            (sample_world true [])))
  = false.
Proof.
  exact (loop_exit_flag
           (sample_cfg true "2.1.0" "2.0.0") quiet_client sample_stringify
           [{| arrivals := [Some shutdown_message]; callbacks := [] |}; idle]
           (sample_world true [])
           (snd (process_queue (sample_cfg true "2.1.0" "2.0.0") quiet_client
                               sample_stringify
                               [{| arrivals := [Some shutdown_message];
                                   callbacks := [] |}; idle]
                               (sample_world true [])))
           (Some tt) eq_refl).
Defined.

Lemma refused_connection_leaves_loop_witness :
  fst (process_queue (sample_cfg true "2.1.0" "2.0.0") quiet_client
                     sample_stringify
                     [{| arrivals := [Some (face_message VNone)];
                         callbacks := [OnConnect 5] |}; idle]
                     (sample_world false []))
  = inl (RuntimeError "MQTT failed to connect: %s" 5).
Proof.
  refine (f_equal fst (refused_connection_leaves_loop
            (sample_cfg true "2.1.0" "2.0.0") quiet_client sample_stringify
            [Some (face_message VNone)] [] [idle] 5 (sample_world false [])
            eq_refl _ eq_refl)).
  discriminate.
Defined.

Lemma disconnect_drops_next_message_witness :
  alive (snd (iteration (sample_cfg true "2.1.0" "2.0.0") quiet_client
                        sample_stringify
                        {| arrivals := []; callbacks := [OnDisconnect 1] |}
                        (sample_world true [Some shutdown_message])))
  = true.
Proof.
  exact (f_equal (fun r => alive (snd r))
           (disconnect_drops_next_message
              (sample_cfg true "2.1.0" "2.0.0") quiet_client sample_stringify
              1 (sample_world true [Some shutdown_message])
              (Some shutdown_message) [] eq_refl eq_refl)).
Defined.

Lemma disconnected_worker_discards_witness :
  inQueue (snd (process_queue (sample_cfg true "2.1.0" "2.0.0") quiet_client
                              sample_stringify (repeat idle 2)
                              (sample_world false
                                 [Some shutdown_message; None;
                                  Some (face_message VNone)])))
  = [Some (face_message VNone)].
Proof.
  exact (proj2 (proj2 (proj2 (disconnected_worker_discards
           (sample_cfg true "2.1.0" "2.0.0") quiet_client sample_stringify
           2 (sample_world false [Some shutdown_message; None;
                                  Some (face_message VNone)])
           eq_refl eq_refl (fun _ => eq_refl))))).
Defined.

Lemma two_attributes_scalar : scalar_attrs two_attributes.
Proof.
  split.
  - simpl. repeat constructor; simpl; intuition discriminate.
  - repeat constructor; simpl; discriminate.
Qed.

Lemma face_values_scalars_witness :
  publish_face_values
    (sample_cfg false "2.1.0" "2.0.0") quiet_client
    (face_message
       (VDict [("predictions"%string,
                VList [VDict [("faceAttributes"%string, VDict two_attributes)]])]))
    (sample_world true [])
  = (inr tt,
     after (sample_world true [])
           [ClientPublish "account" (VStr "age") (PVal (VInt 30));
            ClientPublish "account" (VStr "gender") (PVal (VStr "male"))]).
Proof.
  refine (face_values_scalars
            (sample_cfg false "2.1.0" "2.0.0") quiet_client (fun _ _ => eq_refl)
            (face_message
               (VDict [("predictions"%string,
                        VList [VDict [("faceAttributes"%string,
                                       VDict two_attributes)]])]))
            [VDict [("faceAttributes"%string, VDict two_attributes)]]
            [two_attributes] (sample_world true []) eq_refl _ _).
  - constructor; [reflexivity | constructor].
  - constructor; [exact two_attributes_scalar | constructor].
Defined.

Lemma minimum_version_accepted_witness :
  fst (check_ss_version (sample_cfg true "2.1.0" "2.1.0") (sample_world false []))
  = inr true.
Proof.
  refine (f_equal fst (minimum_version_accepted
            (sample_cfg true "2.1.0" "2.1.0") (sample_world false [])
            eq_refl _)).
  discriminate.
Defined.

Lemma incomparable_versions_raise_witness :
  fst (check_ss_version (sample_cfg true "2.0.0" "2.0.b") (sample_world false []))
  = inl (TypeError "'<' not supported between instances of 'int' and 'str'").
Proof.
  exact (f_equal fst (incomparable_versions_raise
           (sample_cfg true "2.0.0" "2.0.b") (sample_world false [])
           (TypeError "'<' not supported between instances of 'int' and 'str'")
           eq_refl)).
Defined.

Lemma numeric_versions_compare_witness :
  exists r, LooseVersion.lt "2.0.0" "2.10" = inr r.
Proof.
  refine (numeric_versions_compare "2.0.0" "2.10" eq_refl eq_refl _ _);
    discriminate.
Defined.

Lemma loose_lt_asym_witness : LooseVersion.lt "2.10.0" "2.9.0" = inr false.
Proof. exact (loose_lt_asym "2.9.0" "2.10.0" eq_refl). Defined.

Lemma flatten_dict_integers_witness :
  flatten_dict (VDict [("a"%string, VInt 1); ("b"%string, VBool true);
                       ("c"%string, VInt 1)])
               (sample_world true [])
  = (inr (VFloat (float_literal 1 1)), sample_world true []).
Proof.
  refine (flatten_dict_integers
            [("a"%string, VInt 1); ("b"%string, VBool true); ("c"%string, VInt 1)]
            [1; 1; 1] (sample_world true []) _ _).
  - simpl. repeat constructor; simpl; intuition discriminate.
  - repeat constructor.
Defined.

Lemma shutdown_ends_loop_witness :
  fst (process_queue (sample_cfg true "2.1.0" "2.0.0") quiet_client
                     sample_stringify [idle; idle; idle]
                     (sample_world true [Some shutdown_message; None]))
  = inr (Some tt).
Proof.
  exact (f_equal fst (shutdown_ends_loop
           (sample_cfg true "2.1.0" "2.0.0") quiet_client sample_stringify
           [idle; idle] (sample_world true [Some shutdown_message; None])
           shutdown_message [None] eq_refl eq_refl eq_refl eq_refl eq_refl)).
Defined.

Lemma ok_response_is_predictions_witness :
  AzureImagePredictor.get_prediction
    "0123456789abcdef" "westus.api.cognitive.microsoft.com" working_endpoint "image"
  = ([("predictions"%string, VList [VDict []])],
     [AzureImagePredictor.LogDebug "Got azure data %s" (VList [VDict []])]).
Proof.
  refine (ok_response_is_predictions
            "0123456789abcdef" "westus.api.cognitive.microsoft.com"
            working_endpoint "image" _ (VList [VDict []]) _ eq_refl eq_refl eq_refl).
  simpl. lia.
Defined.

Lemma failed_request_reported_as_predictions_witness :
  AzureImagePredictor.get_prediction
    "0123456789abcdef" "westus.api.cognitive.microsoft.com"
    unreachable_endpoint "image"
  = ([("predictions"%string, VNone)],
     [AzureImagePredictor.LogError "Connection refused"]).
Proof.
  refine (failed_request_reported_as_predictions
            "0123456789abcdef" "westus.api.cognitive.microsoft.com"
            unreachable_endpoint "image"
            (AzureImagePredictor.External "Connection refused") _ eq_refl).
  simpl. lia.
Defined.

Lemma empty_attribute_name_stops_face_witness :
  publish_face_values
    (sample_cfg false "2.1.0" "2.0.0") quiet_client
    (face_message
       (VDict [("predictions"%string,
                VList [VDict [("faceAttributes"%string,
                               VDict (two_attributes
                                      ++ (""%string, VInt 1)
                                         :: [("smile"%string, VInt 2)]))]])]))
    (sample_world true [])
  = (inr tt,
     after (sample_world true [])
           (attr_publishes "account" two_attributes
            ++ [Log ERROR "Error publishing values: %s"
                    [ArgExn (NameError "_feedName")]])).
Proof.
  refine (empty_attribute_name_stops_face
            (sample_cfg false "2.1.0" "2.0.0") quiet_client (fun _ _ => eq_refl)
            (face_message
               (VDict [("predictions"%string,
                        VList [VDict [("faceAttributes"%string,
                                       VDict (two_attributes
                                              ++ (""%string, VInt 1)
                                                 :: [("smile"%string, VInt 2)]))]])]))
            (VDict [("faceAttributes"%string,
                     VDict (two_attributes
                            ++ (""%string, VInt 1) :: [("smile"%string, VInt 2)]))])
            two_attributes [("smile"%string, VInt 2)] (VInt 1) []
            (sample_world true []) eq_refl eq_refl two_attributes_scalar _ eq_refl).
  simpl. repeat constructor; simpl; intuition discriminate.
Defined.

(* ================================================================= *)
(** ** Connecting, malformed records and the layout of [run] *)

Lemma for_each_app {A : Type} (xs ys : list A) (body : A -> M unit) (w : World) :
  for_each (xs ++ ys) body w
  = bind (for_each xs body) (fun _ => for_each ys body) w.
Proof.
  revert w. induction xs as [| x xs IH]; intros w; simpl.
  - reflexivity.
  - unfold bind.
    destruct (body x w) as [[e | []] w1]; [reflexivity |].
    rewrite IH. reflexivity.
Qed.

Section Records.

Variable cfg : Config.
Variable client : list Event -> Event -> option Exn.

(** The methods only ever add to the trace. *)
Lemma grows_flatten_dict (aDict : PyVal) :
  grows_by (fun _ => true) (flatten_dict aDict).
Proof.
  unfold flatten_dict, flatten_dict_try.
  apply grows_bind.
  - apply grows_try.
    + repeat (apply grows_bind; [apply grows_still; reflexivity | intros ?]).
      apply grows_still. reflexivity.
    + intros e. apply grows_bind; [apply grows_emit; reflexivity | intros _].
      apply grows_still. reflexivity.
  - intros [v |]; apply grows_still; reflexivity.
Qed.

Lemma grows_publish (value : Payload) (feed : PyVal) :
  grows_by (fun _ => true) (publish cfg client value feed).
Proof.
  unfold publish. apply grows_bind.
  - unfold default_feed. destruct (negb (truthy feed));
      apply grows_still; reflexivity.
  - intros feed'. apply grows_call_client. reflexivity.
Qed.

Lemma grows_publish_attr (faceAttrs key : PyVal) :
  grows_by (fun _ => true) (publish_attr cfg client faceAttrs key).
Proof.
  unfold publish_attr.
  apply grows_bind; [apply grows_still; reflexivity | intros attr].
  apply grows_bind; [| intros val; apply grows_publish].
  destruct (is_dict attr); [| apply grows_still; reflexivity].
  apply grows_bind; [apply grows_still; reflexivity | intros v].
  apply grows_bind; [apply grows_flatten_dict | intros val].
  apply grows_bind; [apply grows_emit; reflexivity | intros _].
  apply grows_still. reflexivity.
Qed.

Lemma grows_publish_face (face : PyVal) :
  grows_by (fun _ => true) (publish_face cfg client face).
Proof.
  unfold publish_face.
  apply grows_bind; [apply grows_still; reflexivity | intros faceAttrs].
  apply grows_bind; [apply grows_still; reflexivity | intros keys].
  apply grows_for_each. intros key. apply grows_publish_attr.
Qed.

(** A record without ["faceAttributes"], or whose [faceAttributes]
    cannot be iterated, fails before anything is published for it. *)
Lemma publish_face_fails_early (bad : PyVal) (e : Exn) (w : World) :
  getitem bad (VStr "faceAttributes") = inl e
  \/ (exists faceAttrs, getitem bad (VStr "faceAttributes") = inr faceAttrs
                        /\ py_iter faceAttrs = inl e) ->
  publish_face cfg client bad w = (inl e, w).
Proof.
  unfold publish_face, bind, lift.
  intros [H | [faceAttrs [H1 H2]]].
  - rewrite H. reflexivity.
  - rewrite H1, H2. reflexivity.
Qed.

(** C7, as the code behaves. [publish_face_values] never raises. When
    [extended_data] has no ["predictions"] key the [KeyError] is logged and
    the client is not called; the same holds when the entry cannot be
    iterated and when its first record has no ["faceAttributes"]; when the
    entry is empty nothing happens at all. When a record of the entry
    fails, after the records before it were handled, the traversal stops
    there: what was done up to the failure stands, the error is logged and
    the records after it are not looked at. A record without
    ["faceAttributes"], or whose [faceAttributes] cannot be iterated, fails
    before anything is published for it, so when it is the first record the
    client is not called. *)
Theorem face_values_without_predictions (m : Message) (w : World) :
  fst (publish_face_values cfg client m w) = inr tt
  /\ (forall d, extended_data m = VDict d ->
      lookup "predictions" d = None ->
      snd (publish_face_values cfg client m w)
      = after w [Log ERROR "Error publishing values: %s"
                     [ArgExn (KeyError (VStr "predictions"))]])
  /\ (forall d p e, extended_data m = VDict d ->
      lookup "predictions" d = Some p ->
      py_iter p = inl e ->
      snd (publish_face_values cfg client m w)
      = after w [Log ERROR "Error publishing values: %s" [ArgExn e]])
  /\ (forall d p face rest e, extended_data m = VDict d ->
      lookup "predictions" d = Some p ->
      py_iter p = inr (face :: rest) ->
      getitem face (VStr "faceAttributes") = inl e ->
      snd (publish_face_values cfg client m w)
      = after w [Log ERROR "Error publishing values: %s" [ArgExn e]])
  /\ (forall d p, extended_data m = VDict d ->
      lookup "predictions" d = Some p ->
      py_iter p = inr [] ->
      snd (publish_face_values cfg client m w) = w)
  /\ (forall d p good bad rest w1 w2 e, extended_data m = VDict d ->
      lookup "predictions" d = Some p ->
      py_iter p = inr (good ++ bad :: rest) ->
      for_each good (publish_face cfg client) w = (inr tt, w1) ->
      publish_face cfg client bad w1 = (inl e, w2) ->
      snd (publish_face_values cfg client m w)
      = after w2 [Log ERROR "Error publishing values: %s" [ArgExn e]]
      /\ exists evs1 evs2,
           trace w1 = trace w ++ evs1 /\ trace w2 = trace w1 ++ evs2)
  /\ (forall bad e w1,
      getitem bad (VStr "faceAttributes") = inl e
      \/ (exists faceAttrs, getitem bad (VStr "faceAttributes") = inr faceAttrs
                            /\ py_iter faceAttrs = inl e) ->
      publish_face cfg client bad w1 = (inl e, w1))
  /\ (forall d p bad rest e, extended_data m = VDict d ->
      lookup "predictions" d = Some p ->
      py_iter p = inr (bad :: rest) ->
      getitem bad (VStr "faceAttributes") = inl e
      \/ (exists faceAttrs, getitem bad (VStr "faceAttributes") = inr faceAttrs
                            /\ py_iter faceAttrs = inl e) ->
      snd (publish_face_values cfg client m w)
      = after w [Log ERROR "Error publishing values: %s" [ArgExn e]]).
Proof.
  split; [apply try_except_log_returns |].
  assert (Hfirst : forall d p bad rest e, extended_data m = VDict d ->
      lookup "predictions" d = Some p ->
      py_iter p = inr (bad :: rest) ->
      getitem bad (VStr "faceAttributes") = inl e
      \/ (exists faceAttrs, getitem bad (VStr "faceAttributes") = inr faceAttrs
                            /\ py_iter faceAttrs = inl e) ->
      snd (publish_face_values cfg client m w)
      = after w [Log ERROR "Error publishing values: %s" [ArgExn e]]).
  { intros d p bad rest e Hd Hl Hi Hbad.
    rewrite publish_face_values_unfold.
    unfold try_except, bind at 1 2, lift.
    rewrite Hd. simpl. rewrite Hl, Hi.
    simpl for_each. unfold bind at 1.
    rewrite (publish_face_fails_early bad e w Hbad). reflexivity. }
  repeat split; try exact Hfirst.
  - intros d Hd Hl. unfold publish_face_values, try_except, bind, lift, after.
    rewrite Hd. simpl. rewrite Hl. reflexivity.
  - intros d p e Hd Hl Hi.
    unfold publish_face_values, try_except, bind, lift, after.
    rewrite Hd. simpl. rewrite Hl, Hi. reflexivity.
  - intros d p face rest e Hd Hl Hi Hf.
    unfold publish_face_values, try_except, bind, lift, after.
    rewrite Hd. simpl. rewrite Hl, Hi.
    simpl. unfold bind, lift. rewrite Hf. reflexivity.
  - intros d p Hd Hl Hi.
    unfold publish_face_values, try_except, bind, lift, after.
    rewrite Hd. simpl. rewrite Hl, Hi. destruct w; reflexivity.
  - rewrite publish_face_values_unfold.
    unfold try_except, bind at 1 2, lift.
    rewrite H. simpl. rewrite H0, H1.
    rewrite for_each_app. unfold bind at 1. rewrite H2.
    simpl for_each. unfold bind at 1. rewrite H3. reflexivity.
  - destruct (grows_for_each (fun _ => true) good (publish_face cfg client)
                (grows_publish_face) w) as [evs1 [E1 _]].
    destruct (grows_publish_face bad w1) as [evs2 [E2 _]].
    rewrite H2 in E1. rewrite H3 in E2. simpl in E1, E2.
    exists evs1, evs2. split; assumption.
  - intros bad e w1. apply publish_face_fails_early.
Qed.

(** X10. [connect] makes no call when the flag is up. When it is down it
    makes exactly one [client.connect] call, returns or raises as that call
    does, and leaves the flag down, since only [on_connect] raises it. So,
    when the client accepts the calls, a second [connect] before the
    acknowledgement calls the client again, and a [connect] after
    [on_connect] with code 0 does not. *)
Theorem connect_until_acknowledged (w : World) :
  let call := ClientConnect (MqttHost cfg) (MqttPort cfg) (MqttKeepAlive cfg) in
  (mqttConnected w = true -> connect cfg client w = (inr tt, w))
  /\ (mqttConnected w = false ->
      connect cfg client w
      = (match client (trace w) call with Some e => inl e | None => inr tt end,
         after w [call]))
  /\ (mqttConnected w = false ->
      client (trace w) call = None ->
      client (trace w ++ [call]) call = None ->
      bind (connect cfg client) (fun _ => connect cfg client) w
      = (inr tt, after w [call; call]))
  /\ (mqttConnected w = false ->
      client (trace w) call = None ->
      bind (connect cfg client)
           (fun _ => bind (on_connect 0) (fun _ => connect cfg client)) w
      = (inr tt,
         {| alive := alive w; exit := exit w; mqttConnected := true;
            inQueue := inQueue w;
            trace := trace w ++ [call; Log DEBUG "MQTT onConnect called" []] |})).
Proof.
  intros call. destruct w as [al ex conn q tr]. simpl.
  repeat split; intros H; subst.
  - reflexivity.
  - unfold connect, call_client, bind, emit, after. simpl. fold call.
    destruct (client tr call); reflexivity.
  - intros H1 H2.
    unfold connect, call_client, bind, emit, after. simpl. fold call.
    rewrite H1. simpl. rewrite H2. simpl. rewrite <- app_assoc. reflexivity.
  - intros H1.
    unfold connect, on_connect, call_client, bind, log, emit. simpl. fold call.
    rewrite H1. simpl. rewrite <- app_assoc. reflexivity.
Qed.

End Records.

(** C9, as the code is laid out. [mqttClientModule.py] is not read past
    line 174: the [if] of [run] stands at column 7, its body at column 12,
    and the statement on line 174 at column 8, which is none of the
    enclosing indentations, so Python rejects the file with an
    [IndentationError] and there is no [run] to return early. With line 170
    at column 8 the file is well laid out. The gate itself does what is
    asked of it: when the running version compares less than the minimum,
    [check_ss_version] logs the two versions and returns [False] without
    raising. *)
Theorem run_is_not_parsed :
  Layout.read Layout.mqttClientModule_py = inl (Layout.UnindentMismatch 174)
  /\ Layout.read Layout.mqttClientModule_realigned = inr [8; 4; 0]%nat
  /\ (forall (cfg : Config) (w : World),
      LooseVersion.lt (ss_version cfg) (MinSimpleSensorVersion cfg) = inr true ->
      check_ss_version cfg w
      = (inr false,
         after w [Log INFO "Module version %s" [ArgStr (__version__ cfg)];
                  Log ERROR
                    "This module requires a min SimpleSensor %s version.  This instance is running version %s"
                    [ArgStr (MinSimpleSensorVersion cfg);
                     ArgStr (ss_version cfg)]])).
Proof.
  split; [reflexivity |]. split; [reflexivity |].
  intros cfg w Hlt.
  unfold check_ss_version, bind, lift, log, emit. simpl. rewrite Hlt. simpl.
  unfold after. rewrite <- app_assoc. reflexivity.
Qed.

(** The other file is well laid out. *)
Example azureImagePredictor_is_parsed :
  Layout.read Layout.azureImagePredictor_py = inr [16; 12; 8; 4; 0]%nat.
Proof. reflexivity. Qed.

Lemma run_is_not_parsed_witness :
  LooseVersion.lt "2.0.0" "2.1.0" = inr true
  /\ fst (check_ss_version (sample_cfg true "2.0.0" "2.1.0") (sample_world false []))
     = inr false.
Proof.
  split; [reflexivity |].
  exact (f_equal fst (proj2 (proj2 run_is_not_parsed)
                        (sample_cfg true "2.0.0" "2.1.0") (sample_world false [])
                        eq_refl)).
Defined.

Lemma face_values_without_predictions_witness :
  snd (publish_face_values (sample_cfg false "2.1.0" "2.0.0") quiet_client
                           (face_message (VDict [])) (sample_world true []))
  = after (sample_world true [])
          [Log ERROR "Error publishing values: %s"
               [ArgExn (KeyError (VStr "predictions"))]].
Proof.
  exact (proj1 (proj2 (face_values_without_predictions
           (sample_cfg false "2.1.0" "2.0.0") quiet_client
           (face_message (VDict [])) (sample_world true [])))
         [] eq_refl eq_refl).
Defined.

Lemma connect_until_acknowledged_witness :
  bind (connect (sample_cfg true "2.1.0" "2.0.0") quiet_client)
       (fun _ => connect (sample_cfg true "2.1.0" "2.0.0") quiet_client)
       (sample_world false [])
  = (inr tt,
     after (sample_world false [])
           [ClientConnect "io.adafruit.com" 1883 60;
            ClientConnect "io.adafruit.com" 1883 60]).
Proof.
  exact (proj1 (proj2 (proj2 (connect_until_acknowledged
           (sample_cfg true "2.1.0" "2.0.0") quiet_client
           (sample_world false []))))
         eq_refl eq_refl eq_refl).
Defined.
